(** * ConvertFormat: normalisation and per-year consolidation of ATP reports

    A shallow embedding of the class [ConvertFormat] of [ConvertFormat.py]:
    [process_file], [process_directory], [save_to_csv] and
    [adding_serial_number], with the parts of pandas and of the Python
    string library that these methods call.

    Conventions.
    - A Python exception is a value of [exn]; a method returns the object
      state it leaves behind together with an [outcome].
    - [print] appends a line to the [stdout] field of the object.
    - [self.dfs] is a Python dict, iterated in insertion order: it is an
      association list.  The output directory is a finite map from paths to
      file contents.
    - A DataFrame with the eleven output columns is a list of [row cell].
      A cell is a missing value, an integer, a float or a string.  [Flt z]
      is the float [z.0]; [Frac s] is a float with a fractional part, kept as
      its decimal text.  The integers and floats of a frame are within 2^53,
      where a float is exact: a read of a file gives no other, and
      [process_file] builds only the counts of the Test Number column.
    - The fields of a consolidated file that [Pandas.classify] does not
      place (exponents, signs [+], integers beyond 2^53, booleans and the
      like) are outside this development: a read of such a file is
      [NoModel], a method that meets it ends as [Unmodelled], and no
      statement below speaks about it. *)

From Stdlib Require Import ZArith List Ascii Bool Lia DecimalString.
From stdpp Require Import base gmap strings list.
Import ListNotations.

(** ** Exceptions and outcomes *)

Inductive exn : Type :=
| EmptyDataError                (* pandas.errors.EmptyDataError *)
| ParserError (msg : string)    (* pandas.errors.ParserError *)
| KeyError (key : string)
| ValueError
| TypeError
| FileNotFoundError.

(** [except ValueError] also catches the two pandas errors, which are
    subclasses of [ValueError]. *)
Definition is_ValueError (e : exn) : bool :=
  match e with
  | EmptyDataError | ParserError _ | ValueError => true
  | KeyError _ | TypeError | FileNotFoundError => false
  end.

(** [Unmodelled] is no behaviour of the program: the method met a file
    that this development does not describe. *)
Inductive outcome : Type :=
| Returned
| Raised (e : exn)
| Unmodelled.

(** ** Python strings *)

Module PyStr.

(** [s.endswith(suffix)] *)
Fixpoint endswith (s suffix : string) : bool :=
  String.eqb s suffix ||
  match s with
  | EmptyString => false
  | String _ t => endswith t suffix
  end.

Definition cons_head (c : ascii) (parts : list string) : list string :=
  match parts with
  | p :: ps => String c p :: ps
  | [] => [String c EmptyString]
  end.

(** [s.split(': ')]: every occurrence of the separator splits. *)
Fixpoint split_colon_space (s : string) : list string :=
  match s with
  | EmptyString => [EmptyString]
  | String c rest =>
      if Ascii.eqb c ":" then
        match rest with
        | String c2 rest' =>
            if Ascii.eqb c2 " " then EmptyString :: split_colon_space rest'
            else cons_head c (split_colon_space rest)
        | EmptyString => cons_head c (split_colon_space rest)
        end
      else cons_head c (split_colon_space rest)
  end.

Fixpoint zeros (n : nat) : string :=
  match n with
  | O => EmptyString
  | S n' => String "0" (zeros n')
  end.

Definition is_sign (c : ascii) : bool := Ascii.eqb c "+" || Ascii.eqb c "-".

(** [s.zfill(width)]: pads on the left with zeros, after a leading sign;
    a string of [width] characters or more is returned as it is. *)
Definition zfill (width : nat) (s : string) : string :=
  let n := String.length s in
  if (width <=? n)%nat then s
  else match s with
       | String c rest =>
           if is_sign c then String c (zeros (width - n) +:+ rest)
           else zeros (width - n) +:+ s
       | EmptyString => zeros (width - n)
       end.

Definition is_digit (c : ascii) : bool :=
  (48 <=? nat_of_ascii c)%nat && (nat_of_ascii c <=? 57)%nat.

Fixpoint all_digits (s : string) : bool :=
  match s with
  | EmptyString => true
  | String c t => is_digit c && all_digits t
  end.

(** Decimal text of an integer, as [str(z)] gives it. *)
Definition of_Z (z : Z) : string := NilZero.string_of_int (Z.to_int z).

(** A value read from a header line: a string or [None]. *)
Definition pyval : Type := option string.

(** [str(v)] *)
Definition str (v : pyval) : string :=
  match v with
  | Some s => s
  | None => "None"
  end.

End PyStr.

(** ** Cells, rows and DataFrames *)

Inductive cell : Type :=
| NaN
| Int (z : Z)
| Flt (z : Z)
| Str (s : string)
| Frac (s : string).

(** Equality of two values as Python's [==] and pandas' duplicate test see
    it: an integer equals the float of the same value, a string never equals a
    number, and two missing values count as equal.  Two floats with a
    fractional part are equal when their decimal texts are: [Pandas.classify]
    gives such a float one text only. *)
Definition cell_eqb (a b : cell) : bool :=
  match a, b with
  | NaN, NaN => true
  | Int x, Int y | Int x, Flt y | Flt x, Int y | Flt x, Flt y => (x =? y)%Z
  | Str s, Str t => String.eqb s t
  | Frac s, Frac t => String.eqb s t
  | _, _ => false
  end.

(** A header value placed in a DataFrame cell: [None] is a missing value. *)
Definition cell_of_pyval (v : PyStr.pyval) : cell :=
  match v with
  | Some s => Str s
  | None => NaN
  end.

(** One line of the output schema; the fields are the keys of [data_df]. *)
Record row (A : Type) : Type := Row {
  PART_NUMBER : A;
  REVISION : A;
  SERIAL_NUMBER : A;
  BUILD_DATE : A;
  ASSEMBLER : A;
  TEST_DATE : A;
  REBUILD_DATE : A;
  TEST_OPERATOR : A;
  TEST_RESULT : A;
  COMMENTS : A;
  Test_Number : A
}.
Arguments Row {A}.
Arguments PART_NUMBER {A}.
Arguments REVISION {A}.
Arguments SERIAL_NUMBER {A}.
Arguments BUILD_DATE {A}.
Arguments ASSEMBLER {A}.
Arguments TEST_DATE {A}.
Arguments REBUILD_DATE {A}.
Arguments TEST_OPERATOR {A}.
Arguments TEST_RESULT {A}.
Arguments COMMENTS {A}.
Arguments Test_Number {A}.

Definition DataFrame : Type := list (row cell).

Definition rmap {A B : Type} (f : A -> B) (r : row A) : row B :=
  Row (f (PART_NUMBER r)) (f (REVISION r)) (f (SERIAL_NUMBER r))
      (f (BUILD_DATE r)) (f (ASSEMBLER r)) (f (TEST_DATE r))
      (f (REBUILD_DATE r)) (f (TEST_OPERATOR r)) (f (TEST_RESULT r))
      (f (COMMENTS r)) (f (Test_Number r)).

Definition rzip {A B C : Type} (f : A -> B -> C) (r : row A) (q : row B) : row C :=
  Row (f (PART_NUMBER r) (PART_NUMBER q)) (f (REVISION r) (REVISION q))
      (f (SERIAL_NUMBER r) (SERIAL_NUMBER q)) (f (BUILD_DATE r) (BUILD_DATE q))
      (f (ASSEMBLER r) (ASSEMBLER q)) (f (TEST_DATE r) (TEST_DATE q))
      (f (REBUILD_DATE r) (REBUILD_DATE q))
      (f (TEST_OPERATOR r) (TEST_OPERATOR q))
      (f (TEST_RESULT r) (TEST_RESULT q)) (f (COMMENTS r) (COMMENTS q))
      (f (Test_Number r) (Test_Number q)).

Definition rpure {A : Type} (a : A) : row A := Row a a a a a a a a a a a.

Definition rall (r : row bool) : bool :=
  PART_NUMBER r && REVISION r && SERIAL_NUMBER r && BUILD_DATE r &&
  ASSEMBLER r && TEST_DATE r && REBUILD_DATE r && TEST_OPERATOR r &&
  TEST_RESULT r && COMMENTS r && Test_Number r.

Definition set_SERIAL_NUMBER {A : Type} (a : A) (r : row A) : row A :=
  Row (PART_NUMBER r) (REVISION r) a (BUILD_DATE r) (ASSEMBLER r)
      (TEST_DATE r) (REBUILD_DATE r) (TEST_OPERATOR r) (TEST_RESULT r)
      (COMMENTS r) (Test_Number r).

Definition set_Test_Number {A : Type} (a : A) (r : row A) : row A :=
  Row (PART_NUMBER r) (REVISION r) (SERIAL_NUMBER r) (BUILD_DATE r)
      (ASSEMBLER r) (TEST_DATE r) (REBUILD_DATE r) (TEST_OPERATOR r)
      (TEST_RESULT r) (COMMENTS r) a.

(** Two rows are duplicates when they agree in every column. *)
Definition row_eqb (r q : row cell) : bool := rall (rzip cell_eqb r q).

(** The body of a report: a DataFrame with the columns of the file, stored by
    column name. *)
Definition body_frame : Type := list (string * list cell).

Fixpoint get_column (name : string) (df : body_frame) : option (list cell) :=
  match df with
  | [] => None
  | (k, col) :: df' => if String.eqb k name then Some col else get_column name df'
  end.

(** [df[name] = col]: replaces the column or adds it as the last one. *)
Fixpoint set_column (name : string) (col : list cell) (df : body_frame) : body_frame :=
  match df with
  | [] => [(name, col)]
  | (k, c) :: df' =>
      if String.eqb k name then (k, col) :: df' else (k, c) :: set_column name col df'
  end.

(** ** Report files

    [process_file] reaches a report only through two pandas reads and
    [os.path.getsize]; a report is the result of each of them.  The read at
    line 43 and the one at line 65 are the same call on the same file, so
    they share [body]. *)

Inductive read_result (A : Type) : Type :=
| ReadOk (a : A)
| ReadEmptyData
| ReadParserError (msg : string).
Arguments ReadOk {A}.
Arguments ReadEmptyData {A}.
Arguments ReadParserError {A}.

Record report : Type := {
  filename : string;                 (* the path handed to process_file *)
  getsize : N;                       (* os.path.getsize(path) *)
  body : read_result body_frame;     (* pd.read_csv(path, skiprows=6, nrows=34) *)
  header : read_result (list string) (* column 0 of pd.read_csv(path, header=None, nrows=6) *)
}.

(** ** Dictionaries in insertion order *)

Section Dict.
Context {K V : Type} (eqb : K -> K -> bool).

Fixpoint dict_get (k : K) (d : list (K * V)) : option V :=
  match d with
  | [] => None
  | (k', v) :: d' => if eqb k' k then Some v else dict_get k d'
  end.

(** [d[k] = v]: an existing key keeps its place. *)
Fixpoint dict_set (k : K) (v : V) (d : list (K * V)) : list (K * V) :=
  match d with
  | [] => [(k, v)]
  | (k', v') :: d' =>
      if eqb k' k then (k', v) :: d' else (k', v') :: dict_set k v d'
  end.
End Dict.

(** ** The header of a report *)

(** Lines 57-62: one entry per header line, keyed by the text before the
    first separator; the value is the text between the first and the second
    separator, or [None] when the line has no separator. *)
Definition category_entry (line : string) : string * PyStr.pyval :=
  match PyStr.split_colon_space line with
  | category :: value :: _ => (category, Some value)
  | category :: [] => (category, None)
  | [] => (EmptyString, None)
  end.

Definition build_category_dict (lines : list string) : list (string * PyStr.pyval) :=
  fold_left (fun d line => let '(k, v) := category_entry line in dict_set String.eqb k v d)
            lines [].

(** Column 0 of [header_df_final]. *)
Definition header_values (lines : list string) : list PyStr.pyval :=
  map snd (build_category_dict lines).

(** [header_df_final.iloc[i, 0] if len(header_df_final) > i else ""] *)
Definition iloc_or_empty (i : nat) (values : list PyStr.pyval) : PyStr.pyval :=
  match nth_error values i with
  | Some v => v
  | None => Some EmptyString
  end.

(** [header_df_final.iloc[-1, 0] if len(header_df_final) > 0 else ""] *)
Definition iloc_last_or_empty (values : list PyStr.pyval) : PyStr.pyval :=
  match last values with
  | Some v => v
  | None => Some EmptyString
  end.

Definition Serial_Number_of (lines : list string) : PyStr.pyval :=
  iloc_or_empty 3 (header_values lines).
Definition report_Test_Date_str_of (lines : list string) : PyStr.pyval :=
  iloc_or_empty 1 (header_values lines).
Definition Test_Operator_of (lines : list string) : PyStr.pyval :=
  iloc_or_empty 4 (header_values lines).
Definition Test_Result_of (lines : list string) : PyStr.pyval :=
  iloc_last_or_empty (header_values lines).

(** Line 72 *)
Definition formatted_serial_num_of (lines : list string) : string :=
  PyStr.zfill 7 (PyStr.str (Serial_Number_of lines)).

(** Lines 81-84 *)
Definition Comments_of (Test_Result : PyStr.pyval) : string :=
  match Test_Result with
  | Some s => if String.eqb s "PASSED" then "NEEDS TO GO TO FINAL INSPECTION" else "FAILED"
  | None => "FAILED"
  end.

(** Line 66: the per-row comment of the body. *)
Definition row_comment (x : cell) : cell :=
  if cell_eqb x (Str "PASSED") then Str "NEEDS TO GO TO FINAL INSPECTION"
  else Str "FAILED".

(** [data['Comments'] = data['result'].apply(...)]; [None] is the
    [KeyError] of a body without a [result] column. *)
Definition add_body_comments (data : body_frame) : option body_frame :=
  match get_column "result" data with
  | Some col => Some (set_column "Comments" (map row_comment col) data)
  | None => None
  end.

(** ** Dates *)

Record Timestamp : Type := { year : Z; month : Z; day : Z }.

Definition two_digits (z : Z) : string := PyStr.zfill 2 (PyStr.of_Z z).

(** [Test_Date.strftime('%m/%d/%Y')] *)
Definition strftime_mdY (t : Timestamp) : string :=
  two_digits (month t) +:+ "/" +:+ two_digits (day t) +:+ "/" +:+ PyStr.zfill 4 (PyStr.of_Z (year t)).

(** ** The converter object *)

Record ConvertFormat : Type := {
  output_directory : string;
  dfs : list (Z * list DataFrame);
  stdout : list string
}.

Definition init (output_dir : string) : ConvertFormat :=
  {| output_directory := output_dir; dfs := []; stdout := [] |}.

Definition print (line : string) (self : ConvertFormat) : ConvertFormat :=
  {| output_directory := output_directory self;
     dfs := dfs self;
     stdout := stdout self ++ [line] |}.

Definition with_dfs (d : list (Z * list DataFrame)) (self : ConvertFormat) : ConvertFormat :=
  {| output_directory := output_directory self;
     dfs := d;
     stdout := stdout self |}.

(** Lines 86-98: the values of [data_df], one per column. *)
Definition summary_record (lines : list string) (Test_Date : Timestamp) : row cell :=
  {| PART_NUMBER := Str "2AC65A-001";
     REVISION := Str "F";
     SERIAL_NUMBER := Str (formatted_serial_num_of lines);
     BUILD_DATE := Str "";
     ASSEMBLER := Str "NA";
     TEST_DATE := Str (strftime_mdY Test_Date);
     REBUILD_DATE := Str "NA";
     TEST_OPERATOR := cell_of_pyval (Test_Operator_of lines);
     TEST_RESULT := cell_of_pyval (Test_Result_of lines);
     COMMENTS := Str (Comments_of (Test_Result_of lines));
     Test_Number := Str "" |}.

(** Line 100: [pd.DataFrame(data_df)]; every column of [data_df] is a list
    of one value. *)
Definition new_df_of (lines : list string) (Test_Date : Timestamp) : DataFrame :=
  [summary_record lines Test_Date].

(** Lines 112-118: how often each serial number occurs in a year's bucket. *)
Fixpoint count_incr (c : cell) (d : list (cell * Z)) : list (cell * Z) :=
  match d with
  | [] => [(c, 1%Z)]
  | (c', n) :: d' =>
      if cell_eqb c' c then (c', (n + 1)%Z) :: d' else (c', n) :: count_incr c d'
  end.

Definition serial_number_count (bucket : list DataFrame) : list (cell * Z) :=
  fold_left (fun d df_entry =>
               fold_left (fun d' r => count_incr (SERIAL_NUMBER r) d') df_entry d)
            bucket [].

(** [Series.map(dict)]: a value missing from the dict maps to a missing value. *)
Definition map_count (d : list (cell * Z)) (c : cell) : cell :=
  match dict_get cell_eqb c d with
  | Some n => Int n
  | None => NaN
  end.

(** Lines 120-121 *)
Definition assign_test_numbers (bucket : list DataFrame) : list DataFrame :=
  let counts := serial_number_count bucket in
  map (map (fun r => set_Test_Number (map_count counts (SERIAL_NUMBER r)) r)) bucket.

(** Lines 106-121 *)
Definition accumulate (y : Z) (new_df : DataFrame) (d : list (Z * list DataFrame))
  : list (Z * list DataFrame) :=
  let bucket := match dict_get Z.eqb y d with Some b => b | None => [] end in
  dict_set Z.eqb y (assign_test_numbers (bucket ++ [new_df])) d.

Section Walk.

(** [pd.to_datetime] followed by the attribute reads of lines 79 and 103:
    [None] when the value does not parse as a date (the call raises) or
    parses to [NaT] (whose [strftime] raises). *)
Variable to_datetime : PyStr.pyval -> option Timestamp.

Definition process_file (self : ConvertFormat) (f : report) : ConvertFormat * outcome :=
  if negb (PyStr.endswith (filename f) ".csv") then (self, Returned)
  else
    match body f with
    | ReadEmptyData =>
        (print ("EmptyDataError: No data found in file: " +:+ filename f) self, Returned)
    | ReadParserError msg =>
        (print ("Error processing file: " +:+ filename f +:+ ", Error" +:+ msg) self,
         Returned)
    | ReadOk data =>
        if (getsize f =? 0)%N then
          (print ("Warning: " +:+ filename f +:+ " is empty. Skipping...") self, Returned)
        else
          match header f with
          | ReadEmptyData => (self, Raised EmptyDataError)
          | ReadParserError msg => (self, Raised (ParserError msg))
          | ReadOk lines =>
              match add_body_comments data with
              | None => (self, Raised (KeyError "result"))
              | Some _ =>
                  match to_datetime (report_Test_Date_str_of lines) with
                  | None => (self, Raised ValueError)
                  | Some Test_Date =>
                      (with_dfs (accumulate (year Test_Date) (new_df_of lines Test_Date)
                                            (dfs self)) self,
                       Returned)
                  end
              end
          end
    end.

(** Lines 128-133, over the files [os.walk] yields, in its order.  An
    exception leaving [process_file] leaves the loop. *)
Fixpoint process_directory (self : ConvertFormat) (files : list report)
  : ConvertFormat * outcome :=
  match files with
  | [] => (self, Returned)
  | f :: rest =>
      if PyStr.endswith (filename f) ".csv" then
        match process_file (print (filename f) self) f with
        | (self', Returned) => process_directory self' rest
        | (self', Raised e) => (self', Raised e)
        | (self', Unmodelled) => (self', Unmodelled)
        end
      else process_directory self rest
  end.

End Walk.

(** ** Consolidated files: the pandas calls of the merge

    A consolidated file is empty (zero bytes) or a table: the header line
    with the eleven column names, then the data lines, each a row of texts. *)

Inductive file : Type :=
| EmptyFile
| Table (lines : list (row string)).

(** The result of a pandas call: a value, an exception, or [NoModel] when
    the call meets a field that this development does not describe. *)
Inductive result (A : Type) : Type :=
| Ok (a : A)
| Err (e : exn)
| NoModel.
Arguments Ok {A}.
Arguments Err {A}.
Arguments NoModel {A}.

Module Pandas.

(** What the text of a field is read as.  [LitFraction s] is a number with
    a fractional part, [s] being its decimal text without needless zeros, the
    text pandas writes for it.  [LitOutside] is a text that this development
    does not place: it may or may not be a number for pandas. *)
Inductive literal : Type :=
| LitNA
| LitInt (z : Z)
| LitFloat (z : Z)
| LitFraction (s : string)
| LitText
| LitOutside.

(** The texts [read_csv] takes for a missing value by default. *)
Definition na_values : list string :=
  [""; "#N/A"; "#N/A N/A"; "#NA"; "-1.#IND"; "-1.#QNAN"; "-NaN"; "-nan";
   "1.#IND"; "1.#QNAN"; "<NA>"; "N/A"; "NA"; "NULL"; "NaN"; "None"; "n/a";
   "nan"; "null"].

Fixpoint digits_value (acc : Z) (s : string) : option Z :=
  match s with
  | EmptyString => Some acc
  | String c t =>
      if PyStr.is_digit c
      then digits_value (10 * acc + (Z.of_nat (nat_of_ascii c) - 48)) t
      else None
  end.

Definition unsigned_literal (s : string) : option Z :=
  match s with
  | EmptyString => None
  | _ => digits_value 0 s
  end.

Fixpoint split_dot (s : string) : string * option string :=
  match s with
  | EmptyString => (EmptyString, None)
  | String c t =>
      if Ascii.eqb c "." then (EmptyString, Some t)
      else let '(a, b) := split_dot t in (String c a, b)
  end.

(** The digits after the point, without the zeros at their end. *)
Fixpoint strip_zeros (s : string) : string :=
  match s with
  | EmptyString => EmptyString
  | String c t =>
      match strip_zeros t with
      | EmptyString => if Ascii.eqb c "0" then EmptyString else String c EmptyString
      | String c' t' => String c (String c' t')
      end
  end.

(** A decimal: an optional minus sign, one digit or more and, optionally, a
    point followed by one digit or more.  Zeros in front are allowed. *)
Record decimal : Type := {
  negative : bool;
  int_part : Z;
  has_point : bool;
  frac_part : string
}.

Definition decimal_literal (s : string) : option decimal :=
  let '(neg, digits) :=
    match s with
    | String c t => if Ascii.eqb c "-" then (true, t) else (false, s)
    | EmptyString => (false, s)
    end in
  match split_dot digits with
  | (ip, None) =>
      match unsigned_literal ip with
      | Some z =>
          Some {| negative := neg; int_part := z; has_point := false;
                  frac_part := EmptyString |}
      | None => None
      end
  | (ip, Some fp) =>
      match unsigned_literal ip, unsigned_literal fp with
      | Some z, Some _ =>
          Some {| negative := neg; int_part := z; has_point := true;
                  frac_part := strip_zeros fp |}
      | _, _ => None
      end
  end.

(** 2^53: up to it a float64 holds every integer exactly, and the text of
    the float is plain digits. *)
Definition max_exact : Z := 9007199254740992.

Fixpoint any_char (p : ascii -> bool) (s : string) : bool :=
  match s with
  | EmptyString => false
  | String c t => p c || any_char p t
  end.

Definition is_blank (c : ascii) : bool :=
  let n := nat_of_ascii c in
  (n =? 32)%nat || ((9 <=? n)%nat && (n <=? 13)%nat).

(** The characters that a text pandas reads as a number may hold. *)
Definition numeric_char (c : ascii) : bool :=
  PyStr.is_digit c || is_blank c || any_char (Ascii.eqb c) "+-.eExX_,".

Definition lower (c : ascii) : ascii :=
  let n := nat_of_ascii c in
  if (65 <=? n)%nat && (n <=? 90)%nat then ascii_of_nat (n + 32) else c.

(** The text in lower case, without blanks and signs. *)
Fixpoint bare_word (s : string) : string :=
  match s with
  | EmptyString => EmptyString
  | String c t =>
      if is_blank c || any_char (Ascii.eqb c) "+-" then bare_word t
      else String (lower c) (bare_word t)
  end.

(** The words without a digit that pandas may read as a number or as a
    boolean. *)
Definition number_words : list string :=
  [""; "inf"; "infinity"; "nan"; "true"; "false"].

(** A text that pandas keeps as a string for sure: plain ASCII that, when it
    holds a digit, also holds a character no number has, and, when it holds
    none, is none of the words above. *)
Definition surely_text (s : string) : bool :=
  negb (any_char (fun c => (128 <=? nat_of_ascii c)%nat) s) &&
  (if any_char PyStr.is_digit s
   then any_char (fun c => negb (numeric_char c)) s
   else negb (existsb (String.eqb (bare_word s)) number_words)).

Definition signed (neg : bool) (z : Z) : Z := if neg then (- z)%Z else z.

Definition classify (s : string) : literal :=
  if existsb (String.eqb s) na_values then LitNA
  else
    match decimal_literal s with
    | Some d =>
        if String.eqb (frac_part d) EmptyString then
          if (int_part d <=? max_exact)%Z && negb (negative d && (int_part d =? 0)%Z)
          then (if has_point d then LitFloat else LitInt) (signed (negative d) (int_part d))
          else LitOutside
        else
          if (1 <=? int_part d)%Z &&
             (String.length (PyStr.of_Z (int_part d)) + String.length (frac_part d) <=? 15)%nat
          then LitFraction ((if negative d then "-" else "") +:+
                            PyStr.of_Z (int_part d) +:+ "." +:+ frac_part d)
          else LitOutside
    | None => if surely_text s then LitText else LitOutside
    end.

Inductive dtype : Type := int64 | float64 | object.

Definition dtype_join (a b : dtype) : dtype :=
  match a, b with
  | object, _ | _, object => object
  | float64, _ | _, float64 => float64
  | int64, int64 => int64
  end.

Definition column_dtypes {A : Type} (kind : A -> dtype) (rows : list (row A)) : row dtype :=
  fold_left (fun acc r => rzip dtype_join acc (rmap kind r)) rows (rpure int64).

Definition literal_dtype (s : string) : dtype :=
  match classify s with
  | LitNA | LitFloat _ | LitFraction _ => float64
  | LitInt _ => int64
  | LitText | LitOutside => object
  end.

(** A field read into a column of the given type: a column that holds one
    text that is no number keeps every field as the string it is. *)
Definition parse_cell (dt : dtype) (s : string) : cell :=
  match classify s, dt with
  | LitNA, _ => NaN
  | LitInt z, int64 => Int z
  | LitInt z, float64 | LitFloat z, int64 | LitFloat z, float64 => Flt z
  | LitFraction t, int64 | LitFraction t, float64 => Frac t
  | LitInt _, object | LitFloat _, object | LitFraction _, object
  | LitText, _ | LitOutside, _ => Str s
  end.

Definition is_outside (s : string) : bool :=
  match classify s with
  | LitOutside => true
  | _ => false
  end.

Definition any_field (r : row bool) : bool :=
  PART_NUMBER r || REVISION r || SERIAL_NUMBER r || BUILD_DATE r ||
  ASSEMBLER r || TEST_DATE r || REBUILD_DATE r || TEST_OPERATOR r ||
  TEST_RESULT r || COMMENTS r || Test_Number r.

(** [pd.read_csv(path)] of an existing file. *)
Definition read_csv (f : file) : result DataFrame :=
  match f with
  | EmptyFile => Err EmptyDataError
  | Table lines =>
      if existsb (fun line => any_field (rmap is_outside line)) lines then NoModel
      else Ok (map (rzip parse_cell (column_dtypes literal_dtype lines)) lines)
  end.

(** The text of a value in a file; integers and floats of a frame stay
    within 2^53. *)
Definition render (c : cell) : string :=
  match c with
  | NaN => EmptyString
  | Int z => PyStr.of_Z z
  | Flt z => PyStr.of_Z z +:+ ".0"
  | Str s => s
  | Frac s => s
  end.

(** [df.to_csv(path, index=False)] *)
Definition to_csv (df : DataFrame) : file := Table (map (rmap render) df).

Definition cell_dtype (c : cell) : dtype :=
  match c with
  | Int _ => int64
  | NaN | Flt _ | Frac _ => float64
  | Str _ => object
  end.

Definition unify_cell (dt : dtype) (c : cell) : cell :=
  match c, dt with
  | Int z, float64 => Flt z
  | _, _ => c
  end.

(** [pd.concat(frames)]: the rows in order; a numeric column that holds a
    missing value or a float becomes a float column; a frame lacking a
    column has missing values there. *)
Definition concat (frames : list DataFrame) : DataFrame :=
  let rows := List.concat frames in
  map (rzip unify_cell (column_dtypes cell_dtype rows)) rows.

Fixpoint drop_duplicates_from (seen : list (row cell)) (df : DataFrame) : DataFrame :=
  match df with
  | [] => []
  | r :: df' =>
      if existsb (row_eqb r) seen then drop_duplicates_from seen df'
      else r :: drop_duplicates_from (r :: seen) df'
  end.

(** [df.drop_duplicates()]: the first of equal rows is kept. *)
Definition drop_duplicates (df : DataFrame) : DataFrame := drop_duplicates_from [] df.

(** [pd.to_numeric(col, errors='coerce')] on one value: a string that is no
    number becomes a missing value. *)
Definition to_numeric_coerce (c : cell) : result cell :=
  match c with
  | Str s =>
      match classify s with
      | LitInt z => Ok (Int z)
      | LitFloat z => Ok (Flt z)
      | LitFraction t => Ok (Frac t)
      | LitNA | LitText => Ok NaN
      | LitOutside => NoModel
      end
  | _ => Ok c
  end.

Definition isna (c : cell) : bool :=
  match c with
  | NaN => true
  | _ => false
  end.

(** [df.dropna(subset=['SERIAL NUMBER'])] *)
Definition dropna_SERIAL_NUMBER (df : DataFrame) : DataFrame :=
  List.filter (fun r => negb (isna (SERIAL_NUMBER r))) df.

(** [astype('Int64')] on one value of a numeric column: a float with a
    fractional part cannot be cast, and the cast raises [TypeError].  A
    number beyond 2^53, which no read of a file gives here, is not
    described. *)
Definition astype_Int64 (c : cell) : result cell :=
  match c with
  | Int z | Flt z => if (Z.abs z <=? max_exact)%Z then Ok (Int z) else NoModel
  | NaN => Ok NaN
  | Frac _ => Err TypeError
  | Str _ => NoModel
  end.

(** A call on the SERIAL NUMBER column, value by value: the first value on
    which it fails decides. *)
Fixpoint on_SERIAL_NUMBER (f : cell -> result cell) (df : DataFrame) : result DataFrame :=
  match df with
  | [] => Ok []
  | r :: df' =>
      match f (SERIAL_NUMBER r) with
      | Ok c =>
          match on_SERIAL_NUMBER f df' with
          | Ok rest => Ok (set_SERIAL_NUMBER c r :: rest)
          | Err e => Err e
          | NoModel => NoModel
          end
      | Err e => Err e
      | NoModel => NoModel
      end
  end.

Definition is_number (c : cell) : bool :=
  match c with
  | Int _ | Flt _ | Frac _ => true
  | _ => false
  end.

Definition is_str (c : cell) : bool :=
  match c with
  | Str _ => true
  | _ => false
  end.

Definition is_frac (c : cell) : bool :=
  match c with
  | Frac _ => true
  | _ => false
  end.

(** The order of [sort_values] on keys that can be compared; a missing key
    goes last. *)
Definition key_leb (a b : cell) : bool :=
  match a, b with
  | _, NaN => true
  | NaN, _ => false
  | Int x, Int y | Int x, Flt y | Flt x, Int y | Flt x, Flt y => (x <=? y)%Z
  | Str s, Str t => String.leb s t
  | _, _ => true
  end.

Fixpoint insert_sorted (r : row cell) (sorted : DataFrame) : DataFrame :=
  match sorted with
  | [] => [r]
  | q :: rest =>
      if key_leb (SERIAL_NUMBER r) (SERIAL_NUMBER q) then r :: sorted
      else q :: insert_sorted r rest
  end.

(** [df.sort_values(by='SERIAL NUMBER')]: comparing a string with a number
    raises [TypeError].  Rows with equal keys are kept in their order here;
    pandas does not fix their order.  The order of keys with a fractional
    part is not described. *)
Definition sort_values_SERIAL_NUMBER (df : DataFrame) : result DataFrame :=
  let keys := map SERIAL_NUMBER df in
  if existsb is_str keys && existsb is_number keys then Err TypeError
  else if existsb is_frac keys then NoModel
  else Ok (fold_right insert_sorted [] df).

End Pandas.

(** [os.path.join(a, b)] for a relative [b]. *)
Definition path_join (a b : string) : string :=
  if String.eqb a "" then b
  else if PyStr.endswith a "/" then a +:+ b
  else a +:+ "/" +:+ b.

(** ** Merge on save *)

(** Line 186: the frame of the serial numbers that are missing. *)
Definition blank_row (c : cell) : row cell := set_SERIAL_NUMBER c (rpure NaN).

Fixpoint unique_cells (seen : list cell) (l : list cell) : list cell :=
  match l with
  | [] => []
  | c :: l' =>
      if existsb (cell_eqb c) seen then unique_cells seen l'
      else c :: unique_cells (c :: seen) l'
  end.

(** Lines 180-182: [set(df_entry['SERIAL NUMBER']) - existing_serial_nums],
    listed in the order of the entry. *)
Definition missing_serial_nums (existing : list cell) (df_entry : DataFrame) : list cell :=
  List.filter (fun c => negb (existsb (cell_eqb c) existing))
              (unique_cells [] (map SERIAL_NUMBER df_entry)).

(** Lines 180-187 for one entry of the accumulator. *)
Definition add_missing (existing : list cell) (df : DataFrame) (df_entry : DataFrame)
  : DataFrame :=
  match missing_serial_nums existing df_entry with
  | [] => df
  | missing => Pandas.concat [df; map blank_row missing]
  end.

(** Lines 166-172: [to_numeric] with [errors='coerce'] does not raise;
    [astype('Int64')] raises [TypeError] when a serial number that is left
    has a fractional part. *)
Definition coerce_serial_numbers (df : DataFrame) : result DataFrame :=
  match Pandas.on_SERIAL_NUMBER Pandas.to_numeric_coerce df with
  | Ok df1 =>
      Pandas.on_SERIAL_NUMBER Pandas.astype_Int64 (Pandas.dropna_SERIAL_NUMBER df1)
  | Err e => Err e
  | NoModel => NoModel
  end.

(** Lines 175-187: every year of [self.dfs] is visited. *)
Definition insert_missing (d : list (Z * list DataFrame)) (df : DataFrame) : DataFrame :=
  let existing_serial_nums := map SERIAL_NUMBER df in
  fold_left (fun acc '(_, dataframes) =>
               fold_left (add_missing existing_serial_nums) dataframes acc)
            d df.

Definition exn_name (e : exn) : string :=
  match e with
  | EmptyDataError => "No columns to parse from file"
  | ParserError msg => msg
  | KeyError key => key
  | ValueError => "ValueError"
  | TypeError => "'<' not supported between instances of 'str' and 'int'"
  | FileNotFoundError => "No such file or directory"
  end.

(** Line 189; the array is printed here as its values separated by spaces. *)
Definition values_line (df : DataFrame) : string :=
  "Values before sorting: " +:+
  String.concat " " (map Pandas.render (unique_cells [] (map SERIAL_NUMBER df))).

(** Lines 163-198, inside the [try]. *)
Definition reconcile (self : ConvertFormat) (fs : gmap string file) (path : string)
  : result (ConvertFormat * gmap string file) :=
  match fs !! path with
  | None => Err FileNotFoundError
  | Some f =>
      match Pandas.read_csv f with
      | Err e => Err e
      | NoModel => NoModel
      | Ok df0 =>
          match coerce_serial_numbers df0 with
          | Err e => Err e
          | NoModel => NoModel
          | Ok df1 =>
              let df := insert_missing (dfs self) df1 in
              let self1 := print (values_line df) self in
              match Pandas.sort_values_SERIAL_NUMBER df with
              | Ok sorted => Ok (self1, <[path := Pandas.to_csv sorted]> fs)
              | Err e_sort =>
                  Ok (print ("Error sorting file " +:+ path +:+ ": " +:+
                             exn_name e_sort +:+ ". Skipping sorting operation...") self1,
                      <[path := Pandas.to_csv df]> fs)
              | NoModel => NoModel
              end
          end
      end
  end.

(** Lines 158-201: [except ValueError] catches no [TypeError]. *)
Definition adding_serial_number (self : ConvertFormat) (fs : gmap string file) (path : string)
  : ConvertFormat * gmap string file * outcome :=
  match reconcile self fs path with
  | Ok (self', fs') => (self', fs', Returned)
  | Err e =>
      if is_ValueError e then
        (print ("Error processing file " +:+ path +:+ ": " +:+ exn_name e +:+
                ". Skipping this file...") self, fs, Returned)
      else (self, fs, Raised e)
  | NoModel => (self, fs, Unmodelled)
  end.

Definition output_path_of (self : ConvertFormat) (y : Z) : string :=
  path_join (output_directory self) ("Filename " +:+ PyStr.of_Z y +:+ ".csv").

(** Lines 142-154: the frame written for one year. *)
Definition merged_frame (fs : gmap string file) (output_path : string)
           (dataframes : list DataFrame) : result DataFrame :=
  let result_df := Pandas.concat dataframes in
  match fs !! output_path with
  | Some f =>
      match Pandas.read_csv f with
      | Ok existing_data =>
          Ok (Pandas.drop_duplicates (Pandas.concat [existing_data; result_df]))
      | Err e => Err e
      | NoModel => NoModel
      end
  | None => Ok result_df
  end.

(** Lines 140-156 for one item of [self.dfs]. *)
Definition save_year (self : ConvertFormat) (fs : gmap string file)
           (item : Z * list DataFrame) : ConvertFormat * gmap string file * outcome :=
  let '(y, dataframes) := item in
  let output_path := output_path_of self y in
  match merged_frame fs output_path dataframes with
  | Err e => (self, fs, Raised e)
  | NoModel => (self, fs, Unmodelled)
  | Ok result_df =>
      adding_serial_number self (<[output_path := Pandas.to_csv result_df]> fs) output_path
  end.

Fixpoint save_items (self : ConvertFormat) (fs : gmap string file)
         (items : list (Z * list DataFrame)) : ConvertFormat * gmap string file * outcome :=
  match items with
  | [] => (self, fs, Returned)
  | item :: rest =>
      match save_year self fs item with
      | (self', fs', Returned) => save_items self' fs' rest
      | (self', fs', Raised e) => (self', fs', Raised e)
      | (self', fs', Unmodelled) => (self', fs', Unmodelled)
      end
  end.

(** Lines 135-156 *)
Definition save_to_csv (self : ConvertFormat) (fs : gmap string file)
  : ConvertFormat * gmap string file * outcome :=
  save_items self fs (dfs self).

(** ** Sample reports and a date parser for the examples *)

Module Sample.

(** The month/day/year dates of the reports, one of the formats
    [pd.to_datetime] reads; everything else is rejected here. *)
Definition to_datetime_mdY (v : PyStr.pyval) : option Timestamp :=
  match v with
  | Some s =>
      if (String.length s =? 10)%nat
         && String.eqb (String.substring 2 1 s) "/"
         && String.eqb (String.substring 5 1 s) "/"
      then
        match Pandas.unsigned_literal (String.substring 0 2 s),
              Pandas.unsigned_literal (String.substring 3 2 s),
              Pandas.unsigned_literal (String.substring 6 4 s) with
        | Some m, Some d, Some y =>
            if ((1 <=? m) && (m <=? 12) && (1 <=? d) && (d <=? 31))%Z
            then Some {| year := y; month := m; day := d |}
            else None
        | _, _, _ => None
        end
      else None
  | None => None
  end.

Definition header_lines (date serial operator verdict : string) : list string :=
  [ "Report Name: ATP";
    "Test Date: " +:+ date;
    "Part Number: 2AC65A-001";
    "Serial Number: " +:+ serial;
    "Operator: " +:+ operator;
    "Test Result: " +:+ verdict ].

Definition body3 : body_frame :=
  [ ("test", [Str "voltage"; Str "current"; Str "ports"]);
    ("result", [Str "PASSED"; Str "FAILED"; Str "PASSED"]) ].

Definition body1 : body_frame :=
  [ ("test", [Str "voltage"]); ("result", [Str "PASSED"]) ].

Definition mk_report (name : string) (lines : list string) (b : body_frame) : report :=
  {| filename := name; getsize := 512; body := ReadOk b; header := ReadOk lines |}.

(** The two files of the end-to-end scenario. *)
Definition file_A : report :=
  mk_report "A.csv" (header_lines "01/05/2023" "42" "Kim" "PASSED") body3.
Definition file_B : report :=
  mk_report "B.csv" (header_lines "02/10/2023" "42" "Kim" "FAILED") body3.

(** A report of another year. *)
Definition file_C : report :=
  mk_report "C.csv" (header_lines "03/11/2024" "77" "Lee" "PASSED") body1.

(** A report whose test date is no date. *)
Definition file_bad_date : report :=
  mk_report "D.csv" (header_lines "not a date" "43" "Kim" "PASSED") body3.

(** A report whose serial-number line has no separator. *)
Definition file_no_serial : report :=
  mk_report "E.csv"
    [ "Report Name: ATP"; "Test Date: 01/05/2023"; "Part Number: 2AC65A-001";
      "Serial Number"; "Operator: Kim"; "Test Result: PASSED" ] body3.


Definition file_empty : report :=
  {| filename := "Z.csv"; getsize := 0; body := ReadEmptyData; header := ReadEmptyData |}.

Definition file_garbled : report :=
  {| filename := "G.csv"; getsize := 90;
     body := ReadParserError "Error tokenizing data";
     header := ReadOk (header_lines "01/05/2023" "44" "Kim" "PASSED") |}.

Definition converter0 : ConvertFormat := init "out".

(** The records of [file_A] and [file_B] once both are in the bucket of
    2023. *)
Definition record_A : row cell :=
  {| PART_NUMBER := Str "2AC65A-001"; REVISION := Str "F";
     SERIAL_NUMBER := Str "0000042"; BUILD_DATE := Str ""; ASSEMBLER := Str "NA";
     TEST_DATE := Str "01/05/2023"; REBUILD_DATE := Str "NA";
     TEST_OPERATOR := Str "Kim"; TEST_RESULT := Str "PASSED";
     COMMENTS := Str "NEEDS TO GO TO FINAL INSPECTION"; Test_Number := Int 2 |}.

Definition record_B : row cell :=
  {| PART_NUMBER := Str "2AC65A-001"; REVISION := Str "F";
     SERIAL_NUMBER := Str "0000042"; BUILD_DATE := Str ""; ASSEMBLER := Str "NA";
     TEST_DATE := Str "02/10/2023"; REBUILD_DATE := Str "NA";
     TEST_OPERATOR := Str "Kim"; TEST_RESULT := Str "FAILED";
     COMMENTS := Str "FAILED"; Test_Number := Int 2 |}.

Definition bucket_AB : list DataFrame := [[record_A]; [record_B]].

Definition after (reports : list report) : ConvertFormat :=
  fst (process_directory to_datetime_mdY converter0 reports).

End Sample.

(** The line of a file that holds a serial number and nothing else. *)
Definition serial_only_line (s : string) : row string :=
  set_SERIAL_NUMBER s (rpure EmptyString).

Module Runs.
Import Sample.

Definition path2023 : string := "out/Filename 2023.csv".
Definition path2024 : string := "out/Filename 2024.csv".

(** One run of the program: the walk over [reports], then the save, on the
    output directory [fs]. *)
Definition run (fs : gmap string file) (reports : list report)
  : ConvertFormat * gmap string file * outcome :=
  save_to_csv (after reports) fs.

Definition files_after (fs : gmap string file) (reports : list report) : gmap string file :=
  snd (fst (run fs reports)).

Definition first_run : gmap string file := files_after ∅ [file_A].
Definition second_run : gmap string file := files_after first_run [file_A].


Definition serial_texts (f : option file) : list string :=
  match f with
  | Some (Table lines) => map SERIAL_NUMBER lines
  | _ => []
  end.

(** The line of the summary of [file_A] after reconciliation, and the line
    that holds its serial number only. *)
Definition summary_line_A : row string :=
  {| PART_NUMBER := "2AC65A-001"; REVISION := "F"; SERIAL_NUMBER := "42";
     BUILD_DATE := ""; ASSEMBLER := ""; TEST_DATE := "01/05/2023";
     REBUILD_DATE := ""; TEST_OPERATOR := "Kim"; TEST_RESULT := "PASSED";
     COMMENTS := "NEEDS TO GO TO FINAL INSPECTION"; Test_Number := "1.0" |}.

(** The record of [file_C], alone in the bucket of 2024, and the output
    directory of a run over [file_A] and [file_C] between the merge and
    the reconciliation of 2024. *)
Definition record_C : row cell :=
  {| PART_NUMBER := Str "2AC65A-001"; REVISION := Str "F";
     SERIAL_NUMBER := Str "0000077"; BUILD_DATE := Str ""; ASSEMBLER := Str "NA";
     TEST_DATE := Str "03/11/2024"; REBUILD_DATE := Str "NA";
     TEST_OPERATOR := Str "Lee"; TEST_RESULT := Str "PASSED";
     COMMENTS := Str "NEEDS TO GO TO FINAL INSPECTION"; Test_Number := Int 1 |}.

Definition merged_2024 : gmap string file :=
  {[ path2024 := Pandas.to_csv [record_C] ]}.


(** The frame of [file_A] alone, as the merge writes it into an empty
    output directory. *)
Definition merged_first : gmap string file :=
  {[ path2023 := Pandas.to_csv [set_Test_Number (Int 1) record_A] ]}.

(** An output directory whose file holds two serial numbers, the larger
    first. *)
Definition unsorted_store : gmap string file :=
  {[ path2023 := Table [serial_only_line "77"; serial_only_line "42"] ]}.

(** An output directory whose file is empty. *)
Definition empty_store : gmap string file := {[ path2023 := EmptyFile ]}.

(** An output directory whose file of 2023 holds one line, with the serial
    number 1.5 and nothing else. *)
Definition fraction_store : gmap string file :=
  {[ path2023 := Table [serial_only_line "1.5"] ]}.

(** The line of the summary of [file_A] as the merge writes it next to a
    line read from a file. *)
Definition merged_line_A : row string :=
  {| PART_NUMBER := "2AC65A-001"; REVISION := "F"; SERIAL_NUMBER := "0000042";
     BUILD_DATE := ""; ASSEMBLER := "NA"; TEST_DATE := "01/05/2023";
     REBUILD_DATE := "NA"; TEST_OPERATOR := "Kim"; TEST_RESULT := "PASSED";
     COMMENTS := "NEEDS TO GO TO FINAL INSPECTION"; Test_Number := "1.0" |}.

(** [fraction_store] after the merge of line 154 in a run over [file_A]. *)
Definition fraction_merged : gmap string file :=
  {[ path2023 := Table [serial_only_line "1.5"; merged_line_A] ]}.

End Runs.

(** ** The properties *)

Definition rows_of (bucket : list DataFrame) : list (row cell) := List.concat bucket.

(** The inner loop of lines 113-118 over the rows of a bucket. *)
Definition count_rows (d : list (cell * Z)) (rows : list (row cell)) : list (cell * Z) :=
  fold_left (fun d' r => count_incr (SERIAL_NUMBER r) d') rows d.

(** How many records of a bucket carry the serial number [c]. *)
Definition occurrences (c : cell) (bucket : list DataFrame) : nat :=
  length (List.filter (fun r => cell_eqb (SERIAL_NUMBER r) c) (rows_of bucket)).

Definition test_numbers_ok (d : list (Z * list DataFrame)) : Prop :=
  forall y bucket df_entry r,
    In (y, bucket) d -> In df_entry bucket -> In r df_entry ->
    Test_Number r = Int (Z.of_nat (occurrences (SERIAL_NUMBER r) bucket)).

(** The states of a converter: the fresh object, a state after a line is
    printed, and any state that a call of [process_file] leaves behind. *)
Inductive reachable (to_datetime : PyStr.pyval -> option Timestamp) : ConvertFormat -> Prop :=
| reach_init (output_dir : string) : reachable to_datetime (init output_dir)
| reach_print (line : string) (self : ConvertFormat) :
    reachable to_datetime self -> reachable to_datetime (print line self)
| reach_step (self : ConvertFormat) (f : report) :
    reachable to_datetime self ->
    reachable to_datetime (fst (process_file to_datetime self f)).

Definition total_records (d : list (Z * list DataFrame)) : nat :=
  list_sum (map (fun item => length (rows_of (snd item))) d).

(** Every read of the report succeeds and its test date parses. *)
Definition reads_ok (to_datetime : PyStr.pyval -> option Timestamp) (f : report)
           (lines : list string) (Test_Date : Timestamp) : Prop :=
  PyStr.endswith (filename f) ".csv" = true /\
  (exists data, body f = ReadOk data /\ add_body_comments data <> None) /\
  getsize f <> 0%N /\
  header f = ReadOk lines /\
  to_datetime (report_Test_Date_str_of lines) = Some Test_Date.

(** The walk goes on past [f] with the accumulator as it was. *)
Definition walk_continues (to_datetime : PyStr.pyval -> option Timestamp) (f : report) : Prop :=
  forall self rest, exists self',
    dfs self' = dfs self /\
    process_directory to_datetime self (f :: rest) = process_directory to_datetime self' rest.

(** Lines 166-198: the frame that reconciliation writes over the file read
    as [df0]; no frame is written when lines 166-172 raise. *)
Definition reconciled_frame (d : list (Z * list DataFrame)) (df0 : DataFrame) : DataFrame :=
  match coerce_serial_numbers df0 with
  | Ok df1 =>
      let df := insert_missing d df1 in
      match Pandas.sort_values_SERIAL_NUMBER df with
      | Ok sorted => sorted
      | _ => df
      end
  | _ => []
  end.

(** The serial numbers of the accumulator are strings, as line 72 builds
    them. *)
Definition text_serials (d : list (Z * list DataFrame)) : Prop :=
  forall y bucket df_entry r,
    In (y, bucket) d -> In df_entry bucket -> In r df_entry ->
    exists s, SERIAL_NUMBER r = Str s.

(** A value [c] is among the serial numbers of a frame. *)
Definition has_serial (c : cell) (df : DataFrame) : Prop :=
  exists r, In r df /\ cell_eqb (SERIAL_NUMBER r) c = true.

(** ** Further properties of the walk and of the merge *)

(** Line 130: the files the walk hands to [process_file]. *)
Definition is_csv (f : report) : bool := PyStr.endswith (filename f) ".csv".

(** The columns of a record that lines 68-98 fix or derive. *)
Definition record_ok (r : row cell) : Prop :=
  PART_NUMBER r = Str "2AC65A-001" /\
  REVISION r = Str "F" /\
  BUILD_DATE r = Str "" /\
  ASSEMBLER r = Str "NA" /\
  REBUILD_DATE r = Str "NA" /\
  (exists s, SERIAL_NUMBER r = Str s /\ (7 <= String.length s)%nat) /\
  (COMMENTS r = Str "NEEDS TO GO TO FINAL INSPECTION" \/ COMMENTS r = Str "FAILED").

(** A batch of the bucket of year [y]: one record, dated in [y], with a
    Test Number of one or more. *)
Definition batch_ok (y : Z) (df_entry : DataFrame) : Prop :=
  exists r Test_Date n,
    df_entry = [r] /\ record_ok r /\
    year Test_Date = y /\ TEST_DATE r = Str (strftime_mdY Test_Date) /\
    Test_Number r = Int n /\ (1 <= n)%Z.

Definition dfs_ok (d : list (Z * list DataFrame)) : Prop :=
  forall y bucket df_entry, In (y, bucket) d -> In df_entry bucket -> batch_ok y df_entry.

(** A bucket without its Test Numbers. *)
Definition erase_test_numbers (bucket : list DataFrame) : list DataFrame :=
  map (map (set_Test_Number NaN)) bucket.

(** The text holds the separator of line 59. *)
Fixpoint contains_colon_space (s : string) : bool :=
  match s with
  | EmptyString => false
  | String c rest =>
      (Ascii.eqb c ":" &&
       match rest with
       | String c2 _ => Ascii.eqb c2 " "
       | EmptyString => false
       end)
      || contains_colon_space rest
  end.

(** The category of a header line (line 60). *)
Definition category_of (line : string) : string := fst (category_entry line).

(** No row of the frame equals, in every column, a row before it. *)
Fixpoint distinct_rows (df : DataFrame) : Prop :=
  match df with
  | [] => True
  | r :: df' => (forall q, In q df' -> row_eqb q r = false) /\ distinct_rows df'
  end.

(** Lines 209-211: the script builds a converter, walks the directory and
    saves.  An exception that leaves the walk ends the script before the
    save. *)
Definition script (to_datetime : PyStr.pyval -> option Timestamp) (output_dir : string)
           (reports : list report) (fs : gmap string file)
  : ConvertFormat * gmap string file * outcome :=
  match process_directory to_datetime (init output_dir) reports with
  | (converter, Returned) => save_to_csv converter fs
  | (converter, Raised e) => (converter, fs, Raised e)
  | (converter, Unmodelled) => (converter, fs, Unmodelled)
  end.

(** The report is read, and its test date does not parse. *)
Definition date_fails (to_datetime : PyStr.pyval -> option Timestamp) (f : report) : Prop :=
  is_csv f = true /\
  exists data lines,
    body f = ReadOk data /\ add_body_comments data <> None /\
    getsize f <> 0%N /\ header f = ReadOk lines /\
    to_datetime (report_Test_Date_str_of lines) = None.

(** ** Facts about cells and dictionaries *)

Lemma cell_eqb_refl (c : cell) : cell_eqb c c = true.
Proof.
  destruct c; simpl; auto using Z.eqb_refl, String.eqb_refl.
Qed.

Lemma cell_eqb_sym (a b : cell) : cell_eqb a b = cell_eqb b a.
Proof.
  destruct a, b; simpl; auto using Z.eqb_sym, String.eqb_sym.
Qed.

Lemma cell_eqb_trans (a b c : cell) :
  cell_eqb a b = true -> cell_eqb b c = true -> cell_eqb a c = true.
Proof.
  destruct a, b, c; simpl; try discriminate; auto;
    rewrite ?Z.eqb_eq, ?String.eqb_eq; congruence.
Qed.

Lemma cell_eqb_Str (s : string) (c : cell) : cell_eqb (Str s) c = true -> c = Str s.
Proof.
  destruct c; simpl; try discriminate.
  rewrite String.eqb_eq. congruence.
Qed.

Lemma dict_get_set_same {V : Type} (k : Z) (v : V) (d : list (Z * V)) :
  dict_get Z.eqb k (dict_set Z.eqb k v d) = Some v.
Proof.
  induction d as [|[k' v'] d IH]; simpl.
  - now rewrite Z.eqb_refl.
  - destruct (Z.eqb k' k) eqn:E; simpl; rewrite E; auto.
Qed.

Lemma In_dict_set {V : Type} (k k' : Z) (v v' : V) (d : list (Z * V)) :
  In (k', v') (dict_set Z.eqb k v d) -> (k' = k /\ v' = v) \/ In (k', v') d.
Proof.
  induction d as [|[k0 v0] d IH]; simpl.
  - intros [H|[]]. inversion H; auto.
  - destruct (Z.eqb k0 k) eqn:E; simpl.
    + intros [H|H]; auto. inversion H; subst. apply Z.eqb_eq in E. auto.
    + intros [H|H]; auto. destruct (IH H); auto.
Qed.

(** ** Test numbers (lines 111-121) *)

Lemma dict_get_count_incr (c x : cell) (d : list (cell * Z)) :
  dict_get cell_eqb c (count_incr x d) =
  if cell_eqb x c
  then Some (match dict_get cell_eqb c d with Some n => n + 1 | None => 1 end)%Z
  else dict_get cell_eqb c d.
Proof.
  induction d as [|[k n] d IH]; simpl.
  - reflexivity.
  - destruct (cell_eqb k x) eqn:Ekx; simpl.
    + destruct (cell_eqb x c) eqn:Exc.
      * now rewrite (cell_eqb_trans _ _ _ Ekx Exc).
      * destruct (cell_eqb k c) eqn:Ekc; auto.
        rewrite cell_eqb_sym in Ekx.
        rewrite (cell_eqb_trans _ _ _ Ekx Ekc) in Exc. discriminate.
    + rewrite IH. destruct (cell_eqb k c) eqn:Ekc; auto.
      destruct (cell_eqb x c) eqn:Exc; auto.
      rewrite cell_eqb_sym in Exc.
      rewrite (cell_eqb_trans _ _ _ Ekc Exc) in Ekx. discriminate.
Qed.

Lemma dict_get_count_rows (c : cell) (rows : list (row cell)) (d : list (cell * Z)) :
  dict_get cell_eqb c (count_rows d rows) =
  match length (List.filter (fun r => cell_eqb (SERIAL_NUMBER r) c) rows) with
  | O => dict_get cell_eqb c d
  | S k => Some (Z.of_nat (S k) +
                 match dict_get cell_eqb c d with Some n => n | None => 0 end)%Z
  end.
Proof.
  revert d. unfold count_rows. induction rows as [|r rows IH]; intros d; simpl.
  - reflexivity.
  - rewrite IH, dict_get_count_incr.
    destruct (cell_eqb (SERIAL_NUMBER r) c); simpl.
    + destruct (length _); destruct (dict_get cell_eqb c d); f_equal; lia.
    + reflexivity.
Qed.

Lemma serial_number_count_rows (bucket : list DataFrame) :
  serial_number_count bucket = count_rows [] (rows_of bucket).
Proof.
  unfold serial_number_count, rows_of, count_rows.
  generalize (@nil (cell * Z)).
  induction bucket as [|e bucket IH]; intros d; simpl.
  - reflexivity.
  - rewrite fold_left_app. apply IH.
Qed.

Lemma map_count_occurrences (c : cell) (bucket : list DataFrame) :
  (0 < occurrences c bucket)%nat ->
  map_count (serial_number_count bucket) c = Int (Z.of_nat (occurrences c bucket)).
Proof.
  unfold map_count, occurrences. intros Hpos.
  rewrite serial_number_count_rows, dict_get_count_rows.
  destruct (length _); [lia|]. simpl dict_get. now rewrite Z.add_0_r.
Qed.

Lemma occurrences_pos (r : row cell) (df_entry : DataFrame) (bucket : list DataFrame) :
  In df_entry bucket -> In r df_entry ->
  (0 < occurrences (SERIAL_NUMBER r) bucket)%nat.
Proof.
  intros He Hr. unfold occurrences, rows_of.
  assert (Hin : In r (List.filter (fun q => cell_eqb (SERIAL_NUMBER q) (SERIAL_NUMBER r))
                                  (List.concat bucket))).
  { apply filter_In. split.
    - apply in_concat. eauto.
    - apply cell_eqb_refl. }
  destruct (List.filter _ _); [destruct Hin | simpl; lia].
Qed.

Lemma filter_length_map {A : Type} (p : A -> bool) (g : A -> A) (l : list A) :
  (forall a, p (g a) = p a) ->
  length (List.filter p (map g l)) = length (List.filter p l).
Proof.
  intros Hp. induction l as [|a l IH]; simpl; auto.
  rewrite Hp. destruct (p a); simpl; auto.
Qed.

Lemma occurrences_map (c : cell) (g : row cell -> row cell) (bucket : list DataFrame) :
  (forall r, SERIAL_NUMBER (g r) = SERIAL_NUMBER r) ->
  occurrences c (map (map g) bucket) = occurrences c bucket.
Proof.
  intros Hg. unfold occurrences, rows_of.
  rewrite <- concat_map. apply filter_length_map.
  intros a. now rewrite Hg.
Qed.

Lemma assign_test_numbers_ok (bucket : list DataFrame) (df_entry : DataFrame) (r : row cell) :
  In df_entry (assign_test_numbers bucket) -> In r df_entry ->
  Test_Number r =
  Int (Z.of_nat (occurrences (SERIAL_NUMBER r) (assign_test_numbers bucket))).
Proof.
  unfold assign_test_numbers. intros He Hr.
  rewrite occurrences_map by reflexivity.
  apply in_map_iff in He. destruct He as (e0 & <- & He0).
  apply in_map_iff in Hr. destruct Hr as (r0 & <- & Hr0).
  simpl. apply map_count_occurrences. eapply occurrences_pos; eauto.
Qed.

Lemma test_numbers_ok_accumulate (y : Z) (new_df : DataFrame) (d : list (Z * list DataFrame)) :
  test_numbers_ok d -> test_numbers_ok (accumulate y new_df d).
Proof.
  intros Hd y' bucket e r Hin He Hr. unfold accumulate in Hin.
  apply In_dict_set in Hin. destruct Hin as [[_ ->]|Hin].
  - now apply assign_test_numbers_ok with (df_entry := e).
  - eapply Hd; eauto.
Qed.

(** What a call of [process_file] does to the accumulator. *)
Lemma process_file_dfs (to_datetime : PyStr.pyval -> option Timestamp)
      (self : ConvertFormat) (f : report) :
  dfs (fst (process_file to_datetime self f)) = dfs self \/
  exists lines Test_Date,
    dfs (fst (process_file to_datetime self f)) =
    accumulate (year Test_Date) (new_df_of lines Test_Date) (dfs self).
Proof.
  unfold process_file.
  destruct (negb _); [now left|].
  destruct (body f) as [data| |msg]; try (now left).
  destruct (getsize f =? 0)%N; [now left|].
  destruct (header f) as [lines| |msg]; try (now left).
  destruct (add_body_comments data); [|now left].
  destruct (to_datetime _) as [ts|]; [|now left].
  right. now exists lines, ts.
Qed.

Lemma reachable_test_numbers_ok (to_datetime : PyStr.pyval -> option Timestamp)
      (self : ConvertFormat) :
  reachable to_datetime self -> test_numbers_ok (dfs self).
Proof.
  induction 1 as [dir|line self _ IH|self f _ IH].
  - intros y bucket e r [].
  - exact IH.
  - destruct (process_file_dfs to_datetime self f) as [->|(lines & ts & ->)]; auto.
    now apply test_numbers_ok_accumulate.
Qed.

(** C2.  In every state of the converter, after any sequence of calls of
    [process_file], each record of each year's bucket carries as its Test
    Number the number of records of that bucket with its serial number; two
    records of a bucket with the same serial number carry the same Test
    Number. *)
Theorem test_number_is_serial_count
        (to_datetime : PyStr.pyval -> option Timestamp) (self : ConvertFormat)
        (y : Z) (bucket : list DataFrame) (df_entry : DataFrame) (r : row cell) :
  reachable to_datetime self ->
  In (y, bucket) (dfs self) -> In df_entry bucket -> In r df_entry ->
  Test_Number r = Int (Z.of_nat (occurrences (SERIAL_NUMBER r) bucket)) /\
  forall df_entry' r',
    In df_entry' bucket -> In r' df_entry' ->
    SERIAL_NUMBER r' = SERIAL_NUMBER r -> Test_Number r' = Test_Number r.
Proof.
  intros Hreach Hin He Hr.
  pose proof (reachable_test_numbers_ok _ _ Hreach) as Hok.
  split.
  - eapply Hok; eauto.
  - intros e' r' He' Hr' Hs.
    rewrite (Hok _ _ _ _ Hin He' Hr'), (Hok _ _ _ _ Hin He Hr). now rewrite Hs.
Qed.

Lemma test_number_is_serial_count_witness :
  Test_Number Sample.record_A =
  Int (Z.of_nat (occurrences (SERIAL_NUMBER Sample.record_A) Sample.bucket_AB)) /\
  forall df_entry' r',
    In df_entry' Sample.bucket_AB -> In r' df_entry' ->
    SERIAL_NUMBER r' = SERIAL_NUMBER Sample.record_A ->
    Test_Number r' = Test_Number Sample.record_A.
Proof.
  apply (test_number_is_serial_count Sample.to_datetime_mdY
           (Sample.after [Sample.file_A; Sample.file_B]) 2023%Z
           Sample.bucket_AB [Sample.record_A] Sample.record_A).
  - change (reachable Sample.to_datetime_mdY
              (fst (process_file Sample.to_datetime_mdY
                      (print "B.csv"
                         (fst (process_file Sample.to_datetime_mdY
                                 (print "A.csv" (init "out")) Sample.file_A)))
                      Sample.file_B))).
    repeat constructor.
  - vm_compute. left. reflexivity.
  - simpl. left. reflexivity.
  - simpl. left. reflexivity.
Defined.

(** The end-to-end scenario of the specification: two reports of serial 42 in
    2023 give two records, both with Test Number 2. *)
Example end_to_end_bucket :
  dfs (Sample.after [Sample.file_A; Sample.file_B]) = [(2023%Z, Sample.bucket_AB)].
Proof. vm_compute. reflexivity. Qed.

(** ** The summary record (lines 56-110) *)

Lemma process_file_reads_ok (to_datetime : PyStr.pyval -> option Timestamp)
      (self : ConvertFormat) (f : report) (lines : list string) (Test_Date : Timestamp) :
  reads_ok to_datetime f lines Test_Date ->
  process_file to_datetime self f =
  (with_dfs (accumulate (year Test_Date) (new_df_of lines Test_Date) (dfs self)) self,
   Returned).
Proof.
  intros (Hcsv & (data & Hbody & Hres) & Hsize & Hhead & Hdate).
  unfold process_file. rewrite Hcsv, Hbody, Hhead, Hdate. simpl.
  apply N.eqb_neq in Hsize. rewrite Hsize.
  destruct (add_body_comments data); [reflexivity | congruence].
Qed.

(** The bucket of the year after a record is added: the batches that were
    there, then one batch that holds the new record alone; only the Test
    Number of the new record is filled in. *)
Lemma accumulate_bucket (y : Z) (r0 : row cell) (d : list (Z * list DataFrame)) :
  exists older n,
    dict_get Z.eqb y (accumulate y [r0] d) = Some (older ++ [[set_Test_Number n r0]]) /\
    length older = length (match dict_get Z.eqb y d with Some b => b | None => [] end).
Proof.
  unfold accumulate. rewrite dict_get_set_same.
  unfold assign_test_numbers. rewrite map_app. simpl.
  eexists _, _. split; [reflexivity|]. now rewrite length_map.
Qed.

Lemma Comments_of_PASSED (v : PyStr.pyval) :
  Comments_of v = "NEEDS TO GO TO FINAL INSPECTION" <-> v = Some "PASSED".
Proof.
  unfold Comments_of. destruct v as [s|].
  - destruct (String.eqb_spec s "PASSED") as [->|Hne].
    + tauto.
    + split; [discriminate | congruence].
  - split; discriminate.
Qed.

Lemma Comments_of_other (v : PyStr.pyval) :
  v <> Some "PASSED" -> Comments_of v = "FAILED".
Proof.
  unfold Comments_of. destruct v as [s|]; auto.
  destruct (String.eqb_spec s "PASSED") as [->|Hne]; congruence.
Qed.

(** C6.  The record that [process_file] adds for a report has COMMENTS
    "NEEDS TO GO TO FINAL INSPECTION" exactly when the test result of the
    header (the value of its last entry) is "PASSED"; for every other value,
    a missing one included, COMMENTS is "FAILED". *)
Theorem comments_follow_test_result
        (to_datetime : PyStr.pyval -> option Timestamp) (self : ConvertFormat)
        (f : report) (lines : list string) (Test_Date : Timestamp) :
  reads_ok to_datetime f lines Test_Date ->
  exists older r,
    dict_get Z.eqb (year Test_Date) (dfs (fst (process_file to_datetime self f))) =
    Some (older ++ [[r]]) /\
    TEST_RESULT r = cell_of_pyval (Test_Result_of lines) /\
    (COMMENTS r = Str "NEEDS TO GO TO FINAL INSPECTION" <->
     Test_Result_of lines = Some "PASSED") /\
    (Test_Result_of lines <> Some "PASSED" -> COMMENTS r = Str "FAILED").
Proof.
  intros Hok. rewrite (process_file_reads_ok _ _ _ _ _ Hok). simpl.
  unfold new_df_of.
  destruct (accumulate_bucket (year Test_Date) (summary_record lines Test_Date) (dfs self))
    as (older & n & Hget & _).
  exists older, (set_Test_Number n (summary_record lines Test_Date)).
  split; [exact Hget|]. simpl. split; [reflexivity|]. split.
  - rewrite <- Comments_of_PASSED. split; congruence.
  - intros Hne. now rewrite Comments_of_other.
Qed.

Lemma reads_ok_file_B :
  reads_ok Sample.to_datetime_mdY Sample.file_B
           (Sample.header_lines "02/10/2023" "42" "Kim" "FAILED")
           {| year := 2023%Z; month := 2%Z; day := 10%Z |}.
Proof.
  repeat split; try reflexivity; try discriminate.
  eexists. split; [reflexivity | discriminate].
Qed.

Lemma comments_follow_test_result_witness :
  exists older r,
    dict_get Z.eqb 2023%Z
      (dfs (fst (process_file Sample.to_datetime_mdY
                   (Sample.after [Sample.file_A]) Sample.file_B))) =
    Some (older ++ [[r]]) /\
    TEST_RESULT r = Str "FAILED" /\
    (COMMENTS r = Str "NEEDS TO GO TO FINAL INSPECTION" <->
     Some "FAILED" = Some "PASSED") /\
    (Some "FAILED" <> Some "PASSED" -> COMMENTS r = Str "FAILED").
Proof.
  exact (comments_follow_test_result Sample.to_datetime_mdY
           (Sample.after [Sample.file_A]) Sample.file_B _ _ reads_ok_file_B).
Defined.

Lemma total_records_dict_set (y : Z) (g : list DataFrame -> list DataFrame) (n : nat)
      (d : list (Z * list DataFrame)) :
  (forall b, length (rows_of (g b)) = length (rows_of b) + n) ->
  total_records
    (dict_set Z.eqb y (g (match dict_get Z.eqb y d with Some b => b | None => [] end)) d) =
  total_records d + n.
Proof.
  intros Hg. unfold total_records.
  induction d as [|[k b] d IH]; simpl.
  - rewrite Hg. simpl. lia.
  - destruct (Z.eqb k y); simpl.
    + rewrite Hg. lia.
    + rewrite IH. lia.
Qed.

Lemma total_records_accumulate (y : Z) (new_df : DataFrame) (d : list (Z * list DataFrame)) :
  total_records (accumulate y new_df d) = total_records d + length new_df.
Proof.
  unfold accumulate.
  apply (total_records_dict_set y (fun b => assign_test_numbers (b ++ [new_df]))).
  intros b. unfold assign_test_numbers, rows_of.
  rewrite <- concat_map, length_map, concat_app, length_app. simpl.
  now rewrite app_nil_r.
Qed.

Lemma get_column_set_same (name : string) (col : list cell) (df : body_frame) :
  get_column name (set_column name col df) = Some col.
Proof.
  induction df as [|[k c] df IH]; simpl.
  - now rewrite String.eqb_refl.
  - destruct (String.eqb k name) eqn:E; simpl; now rewrite E.
Qed.

Lemma get_column_set_other (name name' : string) (col : list cell) (df : body_frame) :
  name' <> name -> get_column name' (set_column name col df) = get_column name' df.
Proof.
  intros Hne. induction df as [|[k c] df IH]; simpl.
  - destruct (String.eqb_spec name name'); congruence.
  - destruct (String.eqb_spec k name) as [->|Hk]; simpl.
    + destruct (String.eqb_spec name name'); congruence.
    + now rewrite IH.
Qed.

(** C9.  Take a report whose body is read, with a [result] column, and whose
    header is read and dated.  Line 66 attaches to the body frame a column
    [Comments] with one comment per body row, computed from the [result]
    value of that row, and changes no other column of it.  The call returns
    and the accumulator grows by exactly one record, whatever the number of
    body rows: the bucket of the year of the test receives, after the
    batches it held (only their Test Numbers may change), one batch of one
    record, and that record is the summary of the file, built of the header
    values and the fixed texts of lines 86-98.  The body does not reach the
    accumulator: reports with the same header leave the same accumulator. *)
Theorem one_record_per_report
        (to_datetime : PyStr.pyval -> option Timestamp) (self : ConvertFormat)
        (f : report) (data : body_frame) (results : list cell)
        (lines : list string) (Test_Date : Timestamp) :
  PyStr.endswith (filename f) ".csv" = true ->
  body f = ReadOk data -> getsize f <> 0%N -> header f = ReadOk lines ->
  get_column "result" data = Some results ->
  to_datetime (report_Test_Date_str_of lines) = Some Test_Date ->
  (exists data',
      add_body_comments data = Some data' /\
      get_column "Comments" data' =
      Some (map (fun x => if cell_eqb x (Str "PASSED")
                          then Str "NEEDS TO GO TO FINAL INSPECTION"
                          else Str "FAILED") results) /\
      forall name, name <> "Comments" -> get_column name data' = get_column name data) /\
  snd (process_file to_datetime self f) = Returned /\
  total_records (dfs (fst (process_file to_datetime self f))) = S (total_records (dfs self)) /\
  (exists older n,
     dict_get Z.eqb (year Test_Date) (dfs (fst (process_file to_datetime self f))) =
     Some (older ++
           [[ {| PART_NUMBER := Str "2AC65A-001";
                 REVISION := Str "F";
                 SERIAL_NUMBER := Str (formatted_serial_num_of lines);
                 BUILD_DATE := Str "";
                 ASSEMBLER := Str "NA";
                 TEST_DATE := Str (strftime_mdY Test_Date);
                 REBUILD_DATE := Str "NA";
                 TEST_OPERATOR := cell_of_pyval (Test_Operator_of lines);
                 TEST_RESULT := cell_of_pyval (Test_Result_of lines);
                 COMMENTS := Str (Comments_of (Test_Result_of lines));
                 Test_Number := n |} ]]) /\
     erase_test_numbers older =
     erase_test_numbers (match dict_get Z.eqb (year Test_Date) (dfs self) with
                         | Some b => b
                         | None => []
                         end)) /\
  forall f',
    reads_ok to_datetime f' lines Test_Date ->
    dfs (fst (process_file to_datetime self f')) =
    dfs (fst (process_file to_datetime self f)).
Proof.
  intros Hcsv Hbody Hsize Hhead Hres Hdate.
  assert (Hadd : add_body_comments data =
                 Some (set_column "Comments" (map row_comment results) data))
    by (unfold add_body_comments; now rewrite Hres).
  assert (Hok : reads_ok to_datetime f lines Test_Date).
  { repeat split; auto. exists data. split; [exact Hbody|]. now rewrite Hadd. }
  split.
  { eexists. split; [exact Hadd|]. split.
    - apply get_column_set_same.
    - intros name Hne. now apply get_column_set_other. }
  rewrite (process_file_reads_ok _ _ _ _ _ Hok). simpl.
  split; [reflexivity|]. split; [|split].
  - rewrite total_records_accumulate. simpl. lia.
  - unfold new_df_of, accumulate. rewrite dict_get_set_same.
    unfold assign_test_numbers. rewrite map_app. simpl.
    eexists _, _. split; [reflexivity|].
    unfold erase_test_numbers. rewrite map_map. apply map_ext. intros e.
    rewrite map_map. apply map_ext. intros r. reflexivity.
  - intros f' Hok'. now rewrite (process_file_reads_ok _ _ _ _ _ Hok').
Qed.

Lemma reads_ok_file_A :
  reads_ok Sample.to_datetime_mdY Sample.file_A
           (Sample.header_lines "01/05/2023" "42" "Kim" "PASSED")
           {| year := 2023%Z; month := 1%Z; day := 5%Z |}.
Proof.
  repeat split; try reflexivity; try discriminate.
  eexists. split; [reflexivity | discriminate].
Qed.

Lemma one_record_per_report_witness :
  (exists data',
      add_body_comments Sample.body3 = Some data' /\
      get_column "Comments" data' =
      Some [Str "NEEDS TO GO TO FINAL INSPECTION"; Str "FAILED";
            Str "NEEDS TO GO TO FINAL INSPECTION"]) /\
  total_records
    (dfs (fst (process_file Sample.to_datetime_mdY Sample.converter0 Sample.file_A))) = 1%nat.
Proof.
  destruct (one_record_per_report
              Sample.to_datetime_mdY Sample.converter0 Sample.file_A Sample.body3
              [Str "PASSED"; Str "FAILED"; Str "PASSED"]
              (Sample.header_lines "01/05/2023" "42" "Kim" "PASSED")
              {| year := 2023%Z; month := 1%Z; day := 5%Z |})
    as ((data' & Hadd & Hcol & _) & _ & Htotal & _).
  - reflexivity.
  - reflexivity.
  - discriminate.
  - reflexivity.
  - reflexivity.
  - reflexivity.
  - split; [|exact Htotal]. exists data'. split; [exact Hadd | exact Hcol].
Defined.

(** The record that the walk over [file_A] leaves in the bucket of 2023. *)
Example summary_of_file_A :
  dfs (Sample.after [Sample.file_A]) =
  [(2023%Z,
    [[ {| PART_NUMBER := Str "2AC65A-001"; REVISION := Str "F";
          SERIAL_NUMBER := Str "0000042"; BUILD_DATE := Str ""; ASSEMBLER := Str "NA";
          TEST_DATE := Str "01/05/2023"; REBUILD_DATE := Str "NA";
          TEST_OPERATOR := Str "Kim"; TEST_RESULT := Str "PASSED";
          COMMENTS := Str "NEEDS TO GO TO FINAL INSPECTION";
          Test_Number := Int 1 |} ]])].
Proof. vm_compute. reflexivity. Qed.

(** The body of [file_A] has three rows, each with its own comment; the
    accumulator receives one record. *)
Example three_body_rows_one_record :
  (exists data', add_body_comments Sample.body3 = Some data' /\
                 get_column "Comments" data' =
                 Some [Str "NEEDS TO GO TO FINAL INSPECTION"; Str "FAILED";
                       Str "NEEDS TO GO TO FINAL INSPECTION"]) /\
  total_records (dfs (Sample.after [Sample.file_A])) = 1%nat.
Proof.
  split; [eexists; split; reflexivity | reflexivity].
Qed.

(** ** The serial number (lines 71-72) *)

Lemma length_zeros (k : nat) : String.length (PyStr.zeros k) = k.
Proof. induction k; simpl; auto. Qed.

Lemma length_zeros_append (k : nat) (s : string) :
  String.length (PyStr.zeros k +:+ s) = (k + String.length s)%nat.
Proof. induction k; simpl; auto. Qed.

Lemma all_digits_zeros_append (k : nat) (s : string) :
  PyStr.all_digits s = true -> PyStr.all_digits (PyStr.zeros k +:+ s) = true.
Proof. intros Hs. induction k; simpl; auto. Qed.

Lemma digit_is_no_sign (c : ascii) : PyStr.is_digit c = true -> PyStr.is_sign c = false.
Proof.
  destruct c as [[] [] [] [] [] [] [] []]; vm_compute; congruence.
Qed.

(** A serial number of at most seven digits is padded with zeros to exactly
    seven digits. *)
Lemma zfill_digits (s : string) :
  PyStr.all_digits s = true -> (String.length s <= 7)%nat ->
  PyStr.zfill 7 s = PyStr.zeros (7 - String.length s) +:+ s /\
  String.length (PyStr.zfill 7 s) = 7%nat /\
  PyStr.all_digits (PyStr.zfill 7 s) = true.
Proof.
  intros Hd Hlen. unfold PyStr.zfill.
  destruct (Nat.leb_spec 7 (String.length s)) as [Hge|Hlt].
  - replace (7 - String.length s)%nat with 0%nat by lia. simpl.
    repeat split; auto. lia.
  - destruct s as [|c rest].
    + repeat split.
    + simpl in Hd. apply andb_true_iff in Hd. destruct Hd as [Hc Hrest].
      rewrite (digit_is_no_sign c Hc).
      repeat split.
      * rewrite length_zeros_append. lia.
      * apply all_digits_zeros_append. simpl. now rewrite Hc, Hrest.
Qed.

(** X9.  When the header holds, at the serial-number position, a text of at most
    seven digits, the SERIAL NUMBER of the record is that text with zeros in
    front: seven characters, all digits. *)
Lemma formatted_serial_num_digits (lines : list string) (s : string) :
  Serial_Number_of lines = Some s ->
  PyStr.all_digits s = true -> (String.length s <= 7)%nat ->
  formatted_serial_num_of lines = PyStr.zeros (7 - String.length s) +:+ s /\
  String.length (formatted_serial_num_of lines) = 7%nat /\
  PyStr.all_digits (formatted_serial_num_of lines) = true.
Proof.
  intros Hs. unfold formatted_serial_num_of. rewrite Hs. simpl. apply zfill_digits.
Qed.

(** A header with fewer than four entries has no serial number: the record
    gets seven zeros. *)
Lemma formatted_serial_num_short_header (lines : list string) :
  (length (header_values lines) <= 3)%nat ->
  formatted_serial_num_of lines = "0000000".
Proof.
  intros Hlen. unfold formatted_serial_num_of, Serial_Number_of, iloc_or_empty.
  apply nth_error_None in Hlen. now rewrite Hlen.
Qed.

(** C5.  A report whose fourth header line has no ": " separator has the
    value [None] at the serial-number position; [str(None).zfill(7)] is
    "000None", which is the SERIAL NUMBER of the record, where the
    specification promises "0000000". *)
Theorem serial_number_of_missing_value :
  header Sample.file_no_serial =
    ReadOk [ "Report Name: ATP"; "Test Date: 01/05/2023"; "Part Number: 2AC65A-001";
             "Serial Number"; "Operator: Kim"; "Test Result: PASSED" ] /\
  Serial_Number_of
    [ "Report Name: ATP"; "Test Date: 01/05/2023"; "Part Number: 2AC65A-001";
      "Serial Number"; "Operator: Kim"; "Test Result: PASSED" ] = None /\
  formatted_serial_num_of
    [ "Report Name: ATP"; "Test Date: 01/05/2023"; "Part Number: 2AC65A-001";
      "Serial Number"; "Operator: Kim"; "Test Result: PASSED" ] = "000None" /\
  map (fun item => map (map SERIAL_NUMBER) (snd item))
      (dfs (Sample.after [Sample.file_no_serial])) = [[[Str "000None"]]].
Proof.
  repeat split.
Qed.

(** ** Failures during the walk (lines 41-54, 78-79, 128-133) *)

(** C1, as amended.  A report whose body read raises [EmptyDataError] or
    [ParserError], or whose size is zero, is logged and skipped inside
    [process_file], and the walk goes on with the next file, the accumulator
    as it was.  A test date that does not parse is not caught: the
    exception leaves [process_file] and [process_directory], and the files
    after it are not visited. *)
Theorem walk_skips_unreadable_body_only
        (to_datetime : PyStr.pyval -> option Timestamp) (f : report) :
  PyStr.endswith (filename f) ".csv" = true ->
  (body f = ReadEmptyData \/
   (exists msg, body f = ReadParserError msg) \/
   (exists data, body f = ReadOk data /\ getsize f = 0%N) ->
   forall self rest, exists line,
     process_directory to_datetime self (f :: rest) =
     process_directory to_datetime (print line (print (filename f) self)) rest) /\
  (forall data lines,
     body f = ReadOk data -> getsize f <> 0%N -> header f = ReadOk lines ->
     add_body_comments data <> None ->
     to_datetime (report_Test_Date_str_of lines) = None ->
     forall self rest,
       process_directory to_datetime self (f :: rest) =
       (print (filename f) self, Raised ValueError)).
Proof.
  intros Hcsv. split.
  - intros Hfail self rest. simpl. unfold process_file. rewrite Hcsv. simpl.
    destruct Hfail as [Hb|[(msg & Hb)|(data & Hb & Hsize)]]; rewrite Hb.
    + eexists. reflexivity.
    + eexists. reflexivity.
    + rewrite Hsize. simpl. eexists. reflexivity.
  - intros data lines Hb Hsize Hh Hres Hdate self rest.
    simpl. unfold process_file. rewrite Hcsv, Hb, Hh, Hdate. simpl.
    apply N.eqb_neq in Hsize. rewrite Hsize.
    destruct (add_body_comments data); [reflexivity | congruence].
Qed.

Lemma walk_skips_unreadable_body_only_witness :
  (exists line,
     process_directory Sample.to_datetime_mdY Sample.converter0
                       [Sample.file_empty; Sample.file_A] =
     process_directory Sample.to_datetime_mdY
                       (print line (print "Z.csv" Sample.converter0)) [Sample.file_A]) /\
  process_directory Sample.to_datetime_mdY Sample.converter0
                    [Sample.file_bad_date; Sample.file_A] =
  (print "D.csv" Sample.converter0, Raised ValueError).
Proof.
  split.
  - apply (proj1 (walk_skips_unreadable_body_only Sample.to_datetime_mdY Sample.file_empty
                    eq_refl)).
    left. reflexivity.
  - apply (proj2 (walk_skips_unreadable_body_only Sample.to_datetime_mdY
                    Sample.file_bad_date eq_refl) Sample.body3
                 (Sample.header_lines "not a date" "43" "Kim" "PASSED")).
    + reflexivity.
    + discriminate.
    + reflexivity.
    + discriminate.
    + reflexivity.
Defined.

(** C1 as the specification states it fails: the walk does not go on past a
    report whose test date does not parse, so the report after it is never
    accumulated. *)
Lemma walk_stops_at_bad_date :
  Sample.to_datetime_mdY (report_Test_Date_str_of
                            (Sample.header_lines "not a date" "43" "Kim" "PASSED")) = None /\
  ~ walk_continues Sample.to_datetime_mdY Sample.file_bad_date /\
  dfs (Sample.after [Sample.file_bad_date; Sample.file_A]) = [] /\
  dfs (Sample.after [Sample.file_A]) <> [].
Proof.
  split; [reflexivity|]. split; [|split].
  - intros H. destruct (H Sample.converter0 []) as (self' & _ & Heq).
    vm_compute in Heq. discriminate.
  - reflexivity.
  - discriminate.
Qed.

(** The two failures that [process_file] catches do let the walk go on. *)
Example walk_passes_empty_and_garbled :
  dfs (Sample.after [Sample.file_empty; Sample.file_garbled; Sample.file_A]) =
  dfs (Sample.after [Sample.file_A]) /\
  stdout (Sample.after [Sample.file_empty; Sample.file_garbled]) =
  [ "Z.csv"; "EmptyDataError: No data found in file: Z.csv";
    "G.csv"; "Error processing file: G.csv, ErrorError tokenizing data" ].
Proof. split; reflexivity. Qed.

(** ** Two runs over the same report *)

(** C3.  The run over [file_A] writes the summary line and a line with the
    serial number alone.  A second run over the same report against that
    file drops nothing at the merge: the record built from the report holds
    the strings "0000042", "" and "NA" where the file read back holds the
    number 42 and missing values, so the three rows differ.  After the
    second run the file holds four lines, the summary twice. *)
Theorem second_run_duplicates_rows :
  Runs.first_run !! Runs.path2023 =
    Some (Table [Runs.summary_line_A; serial_only_line "0000042"]) /\
  (exists df,
      merged_frame Runs.first_run Runs.path2023
                   [[set_Test_Number (Int 1) Sample.record_A]] = Ok df /\
      length df = 3%nat) /\
  Runs.second_run !! Runs.path2023 =
    Some (Table [Runs.summary_line_A; serial_only_line "42";
                 Runs.summary_line_A; serial_only_line "0000042"]).
Proof.
  assert (H1 : Runs.first_run !! Runs.path2023 =
               Some (Table [Runs.summary_line_A; serial_only_line "0000042"]))
    by (vm_compute; reflexivity).
  assert (H2 : Runs.second_run !! Runs.path2023 =
               Some (Table [Runs.summary_line_A; serial_only_line "42";
                            Runs.summary_line_A; serial_only_line "0000042"]))
    by (vm_compute; reflexivity).
  split; [exact H1|]. split.
  - eexists. split; [vm_compute; reflexivity | reflexivity].
  - exact H2.
Qed.

(** C7.  The merge of a first run writes the serial number as the string
    "0000042".  The frame that reconciliation writes back holds the integer
    42 in the row read from the file, and the string "0000042" in the row
    inserted from the accumulator: the file after reconciliation holds
    "42" and "0000042". *)
Theorem serial_number_text_after_reconciliation :
  merged_frame ∅ Runs.path2023 [[set_Test_Number (Int 1) Sample.record_A]] =
    Ok [set_Test_Number (Int 1) Sample.record_A] /\
  SERIAL_NUMBER (set_Test_Number (Int 1) Sample.record_A) = Str "0000042" /\
  (exists df0,
      Pandas.read_csv (Pandas.to_csv [set_Test_Number (Int 1) Sample.record_A]) = Ok df0 /\
      map SERIAL_NUMBER (reconciled_frame (dfs (Sample.after [Sample.file_A])) df0) =
      [Int 42; Str "0000042"]) /\
  Runs.serial_texts (Runs.first_run !! Runs.path2023) = ["42"; "0000042"].
Proof.
  split; [reflexivity|]. split; [reflexivity|]. split.
  - eexists. split; reflexivity.
  - vm_compute. reflexivity.
Qed.

(** ** Further properties of the walk *)

(** X1.  The walk skips every file whose name does not end in ".csv": its result
    is that of the walk over the ".csv" files alone. *)
Theorem process_directory_only_csv
        (to_datetime : PyStr.pyval -> option Timestamp)
        (files : list report) (self : ConvertFormat) :
  process_directory to_datetime self files =
  process_directory to_datetime self (List.filter is_csv files).
Proof.
  revert self. induction files as [|f files IH]; intros self; simpl.
  - reflexivity.
  - unfold is_csv at 1. destruct (PyStr.endswith (filename f) ".csv") eqn:E; simpl.
    + rewrite E.
      destruct (process_file to_datetime (print (filename f) self) f) as [self' [|e|]].
      * apply IH.
      * reflexivity.
      * reflexivity.
    + apply IH.
Qed.

(** X2.  A call of [process_file] that raises leaves the object as it was: no
    record is added and nothing is printed. *)
Theorem process_file_raise_unchanged
        (to_datetime : PyStr.pyval -> option Timestamp)
        (self self' : ConvertFormat) (f : report) (e : exn) :
  process_file to_datetime self f = (self', Raised e) -> self' = self.
Proof.
  unfold process_file.
  destruct (negb _); [discriminate|].
  destruct (body f) as [data| |msg]; try discriminate.
  destruct (getsize f =? 0)%N; [discriminate|].
  destruct (header f) as [lines| |msg]; try (intros H; inversion H; reflexivity).
  destruct (add_body_comments data); [|intros H; inversion H; reflexivity].
  destruct (to_datetime _); [discriminate|].
  intros H. inversion H. reflexivity.
Qed.

Lemma process_file_raise_unchanged_witness :
  fst (process_file Sample.to_datetime_mdY (print "D.csv" Sample.converter0)
                    Sample.file_bad_date) =
  print "D.csv" Sample.converter0.
Proof.
  apply (process_file_raise_unchanged Sample.to_datetime_mdY
           (print "D.csv" Sample.converter0) _ Sample.file_bad_date ValueError).
  reflexivity.
Defined.

Lemma total_records_process_file (to_datetime : PyStr.pyval -> option Timestamp)
      (self : ConvertFormat) (f : report) :
  (total_records (dfs self) <= total_records (dfs (fst (process_file to_datetime self f))) <=
   S (total_records (dfs self)))%nat.
Proof.
  destruct (process_file_dfs to_datetime self f) as [->|(lines & ts & ->)].
  - lia.
  - rewrite total_records_accumulate. simpl. lia.
Qed.

(** X3.  The walk never removes a record, and it adds at most one record for
    each ".csv" file it is given, whether it returns or raises. *)
Theorem walk_adds_at_most_one_record_per_file
        (to_datetime : PyStr.pyval -> option Timestamp)
        (files : list report) (self : ConvertFormat) :
  (total_records (dfs self) <=
   total_records (dfs (fst (process_directory to_datetime self files))) <=
   total_records (dfs self) + length (List.filter is_csv files))%nat.
Proof.
  revert self. induction files as [|f files IH]; intros self; simpl.
  - lia.
  - unfold is_csv at 1 2. destruct (PyStr.endswith (filename f) ".csv"); [|apply IH].
    pose proof (total_records_process_file to_datetime (print (filename f) self) f) as Hstep.
    destruct (process_file to_datetime (print (filename f) self) f) as [self' [|e|]];
      simpl in *.
    + specialize (IH self'). unfold is_csv in *. lia.
    + lia.
    + lia.
Qed.

(** ** Invariants of the accumulator *)

Lemma length_zfill (width : nat) (s : string) :
  String.length (PyStr.zfill width s) = Nat.max width (String.length s).
Proof.
  unfold PyStr.zfill.
  destruct (Nat.leb_spec width (String.length s)) as [Hge|Hlt]; [lia|].
  destruct s as [|c rest]; simpl in *.
  - rewrite length_zeros. lia.
  - destruct (PyStr.is_sign c); simpl; rewrite length_zeros_append; simpl; lia.
Qed.

Lemma dict_get_In {V : Type} (k : Z) (v : V) (d : list (Z * V)) :
  dict_get Z.eqb k d = Some v -> In (k, v) d.
Proof.
  induction d as [|[k' v'] d IH]; simpl; [discriminate|].
  destruct (Z.eqb k' k) eqn:E.
  - intros H. inversion H. subst. apply Z.eqb_eq in E. subst. now left.
  - auto.
Qed.

Lemma dict_get_set_other {V : Type} (k k' : Z) (v : V) (d : list (Z * V)) :
  k' <> k -> dict_get Z.eqb k' (dict_set Z.eqb k v d) = dict_get Z.eqb k' d.
Proof.
  intros Hne. induction d as [|[k0 v0] d IH]; simpl.
  - destruct (Z.eqb_spec k k'); congruence.
  - destruct (Z.eqb k0 k) eqn:E; simpl.
    + apply Z.eqb_eq in E. subst. destruct (Z.eqb_spec k k'); congruence.
    + now rewrite IH.
Qed.

Lemma record_ok_set_Test_Number (c : cell) (r : row cell) :
  record_ok r -> record_ok (set_Test_Number c r).
Proof. unfold record_ok. simpl. tauto. Qed.

Lemma record_ok_summary_record (lines : list string) (Test_Date : Timestamp) :
  record_ok (summary_record lines Test_Date).
Proof.
  unfold record_ok. simpl. repeat split.
  - eexists. split; [reflexivity|].
    unfold formatted_serial_num_of. rewrite length_zfill. lia.
  - unfold Comments_of. destruct (Test_Result_of lines) as [s|]; auto.
    destruct (String.eqb s "PASSED"); auto.
Qed.

Lemma batch_ok_renumbered (y : Z) (bucket : list DataFrame) (df_entry : DataFrame) :
  In df_entry bucket ->
  (exists r Test_Date,
      df_entry = [r] /\ record_ok r /\ year Test_Date = y /\
      TEST_DATE r = Str (strftime_mdY Test_Date)) ->
  batch_ok y (map (fun r => set_Test_Number
                              (map_count (serial_number_count bucket) (SERIAL_NUMBER r)) r)
                  df_entry).
Proof.
  intros He (r & ts & -> & Hr & Hy & Hd). simpl.
  assert (Hpos : (0 < occurrences (SERIAL_NUMBER r) bucket)%nat).
  { eapply occurrences_pos; [exact He | now left]. }
  exists (set_Test_Number (map_count (serial_number_count bucket) (SERIAL_NUMBER r)) r),
         ts, (Z.of_nat (occurrences (SERIAL_NUMBER r) bucket)).
  split; [reflexivity|]. split; [now apply record_ok_set_Test_Number|].
  split; [exact Hy|]. split; [exact Hd|]. simpl.
  split; [now apply map_count_occurrences | lia].
Qed.

Lemma dfs_ok_accumulate (lines : list string) (Test_Date : Timestamp)
      (d : list (Z * list DataFrame)) :
  dfs_ok d -> dfs_ok (accumulate (year Test_Date) (new_df_of lines Test_Date) d).
Proof.
  intros Hd y bucket e Hin He. unfold accumulate in Hin.
  apply In_dict_set in Hin. destruct Hin as [[-> ->]|Hin]; [|eapply Hd; eauto].
  unfold assign_test_numbers in He. apply in_map_iff in He.
  destruct He as (e0 & <- & He0).
  apply batch_ok_renumbered; [exact He0|].
  apply in_app_or in He0. destruct He0 as [Hold|[<-|[]]].
  - destruct (dict_get Z.eqb (year Test_Date) d) as [b|] eqn:Hget; [|destruct Hold].
    apply dict_get_In in Hget.
    destruct (Hd _ _ _ Hget Hold) as (r & ts & n & -> & Hr & Hy & Hdate & _).
    now exists r, ts.
  - exists (summary_record lines Test_Date), Test_Date.
    split; [reflexivity|]. split; [apply record_ok_summary_record|]. now split.
Qed.

Lemma reachable_dfs_ok (to_datetime : PyStr.pyval -> option Timestamp)
      (self : ConvertFormat) :
  reachable to_datetime self -> dfs_ok (dfs self).
Proof.
  induction 1 as [dir|line self _ IH|self f _ IH].
  - intros y bucket e [].
  - exact IH.
  - destruct (process_file_dfs to_datetime self f) as [->|(lines & ts & ->)]; auto.
    now apply dfs_ok_accumulate.
Qed.

(** X4.  In every state of the converter each batch of a year's bucket is a
    frame of exactly one record; the record carries the fixed part number
    "2AC65A-001", revision "F", an empty build date, "NA" as assembler and
    as rebuild date, a serial number that is a string of seven characters
    or more, and one of the two comments. *)
Theorem accumulated_records_are_summaries
        (to_datetime : PyStr.pyval -> option Timestamp) (self : ConvertFormat)
        (y : Z) (bucket : list DataFrame) (df_entry : DataFrame) :
  reachable to_datetime self ->
  In (y, bucket) (dfs self) -> In df_entry bucket ->
  exists r, df_entry = [r] /\ record_ok r.
Proof.
  intros Hreach Hin He.
  destruct (reachable_dfs_ok _ _ Hreach _ _ _ Hin He) as (r & ts & n & -> & Hr & _).
  now exists r.
Qed.

(** X5.  In every state of the converter a record sits in the bucket of the year
    of its test date: its TEST DATE is the month/day/year text of a date of
    the year that keys the bucket. *)
Theorem records_are_filed_by_test_year
        (to_datetime : PyStr.pyval -> option Timestamp) (self : ConvertFormat)
        (y : Z) (bucket : list DataFrame) (df_entry : DataFrame) (r : row cell) :
  reachable to_datetime self ->
  In (y, bucket) (dfs self) -> In df_entry bucket -> In r df_entry ->
  exists Test_Date, year Test_Date = y /\ TEST_DATE r = Str (strftime_mdY Test_Date).
Proof.
  intros Hreach Hin He Hr.
  destruct (reachable_dfs_ok _ _ Hreach _ _ _ Hin He)
    as (r0 & ts & n & -> & _ & Hy & Hd & _).
  destruct Hr as [<-|[]]. now exists ts.
Qed.

(** X6.  In every state of the converter the Test Number of a record is an
    integer of one or more. *)
Theorem test_numbers_are_positive
        (to_datetime : PyStr.pyval -> option Timestamp) (self : ConvertFormat)
        (y : Z) (bucket : list DataFrame) (df_entry : DataFrame) (r : row cell) :
  reachable to_datetime self ->
  In (y, bucket) (dfs self) -> In df_entry bucket -> In r df_entry ->
  exists n, Test_Number r = Int n /\ (1 <= n)%Z.
Proof.
  intros Hreach Hin He Hr.
  destruct (reachable_dfs_ok _ _ Hreach _ _ _ Hin He)
    as (r0 & ts & n & -> & _ & _ & _ & Hn & Hpos).
  destruct Hr as [<-|[]]. now exists n.
Qed.

Lemma reachable_after_A_B :
  reachable Sample.to_datetime_mdY (Sample.after [Sample.file_A; Sample.file_B]).
Proof.
  change (reachable Sample.to_datetime_mdY
            (fst (process_file Sample.to_datetime_mdY
                    (print "B.csv"
                       (fst (process_file Sample.to_datetime_mdY
                               (print "A.csv" (init "out")) Sample.file_A)))
                    Sample.file_B))).
  repeat constructor.
Qed.

Lemma In_bucket_AB : In (2023%Z, Sample.bucket_AB)
                        (dfs (Sample.after [Sample.file_A; Sample.file_B])).
Proof. vm_compute. left. reflexivity. Qed.

Lemma accumulated_records_are_summaries_witness :
  exists r, [Sample.record_B] = [r] /\ record_ok r.
Proof.
  apply (accumulated_records_are_summaries Sample.to_datetime_mdY
           (Sample.after [Sample.file_A; Sample.file_B]) 2023%Z Sample.bucket_AB
           [Sample.record_B] reachable_after_A_B In_bucket_AB).
  right. left. reflexivity.
Defined.

Lemma records_are_filed_by_test_year_witness :
  exists Test_Date,
    year Test_Date = 2023%Z /\ TEST_DATE Sample.record_B = Str (strftime_mdY Test_Date).
Proof.
  apply (records_are_filed_by_test_year Sample.to_datetime_mdY
           (Sample.after [Sample.file_A; Sample.file_B]) 2023%Z Sample.bucket_AB
           [Sample.record_B] Sample.record_B reachable_after_A_B In_bucket_AB).
  - right. left. reflexivity.
  - left. reflexivity.
Defined.

Lemma test_numbers_are_positive_witness :
  exists n, Test_Number Sample.record_B = Int n /\ (1 <= n)%Z.
Proof.
  apply (test_numbers_are_positive Sample.to_datetime_mdY
           (Sample.after [Sample.file_A; Sample.file_B]) 2023%Z Sample.bucket_AB
           [Sample.record_B] Sample.record_B reachable_after_A_B In_bucket_AB).
  - right. left. reflexivity.
  - left. reflexivity.
Defined.

Lemma erase_assign_test_numbers (bucket : list DataFrame) :
  erase_test_numbers (assign_test_numbers bucket) = erase_test_numbers bucket.
Proof.
  unfold erase_test_numbers, assign_test_numbers.
  rewrite map_map. apply map_ext. intros e.
  rewrite map_map. apply map_ext. intros r. reflexivity.
Qed.

(** X8.  A report that is read and parsed changes the bucket of its year only.
    In that bucket the batches that were there keep their order and every
    column but the Test Number, and the new record comes last; the years keep
    the order in which they were first met. *)
Theorem process_file_appends_to_its_year
        (to_datetime : PyStr.pyval -> option Timestamp) (self : ConvertFormat)
        (f : report) (lines : list string) (Test_Date : Timestamp) :
  reads_ok to_datetime f lines Test_Date ->
  (forall y, y <> year Test_Date ->
             dict_get Z.eqb y (dfs (fst (process_file to_datetime self f))) =
             dict_get Z.eqb y (dfs self)) /\
  (exists bucket',
      dict_get Z.eqb (year Test_Date) (dfs (fst (process_file to_datetime self f))) =
      Some bucket' /\
      erase_test_numbers bucket' =
      erase_test_numbers
        (match dict_get Z.eqb (year Test_Date) (dfs self) with
         | Some b => b
         | None => []
         end) ++ [[set_Test_Number NaN (summary_record lines Test_Date)]]) /\
  (map fst (dfs (fst (process_file to_datetime self f))) = map fst (dfs self) \/
   map fst (dfs (fst (process_file to_datetime self f))) =
   map fst (dfs self) ++ [year Test_Date]).
Proof.
  intros Hok. rewrite (process_file_reads_ok _ _ _ _ _ Hok). simpl.
  unfold accumulate. split; [|split].
  - intros y Hy. now apply dict_get_set_other.
  - eexists. split; [apply dict_get_set_same|].
    rewrite erase_assign_test_numbers. unfold erase_test_numbers.
    rewrite map_app. reflexivity.
  - generalize (assign_test_numbers
                  (match dict_get Z.eqb (year Test_Date) (dfs self) with
                   | Some b => b
                   | None => []
                   end ++ [new_df_of lines Test_Date])).
    intros v. induction (dfs self) as [|[k0 v0] d IH]; simpl.
    + now right.
    + destruct (Z.eqb k0 (year Test_Date)); simpl.
      * now left.
      * destruct IH as [->| ->]; [now left | now right].
Qed.

Lemma process_file_appends_to_its_year_witness :
  dict_get Z.eqb 2024%Z
    (dfs (fst (process_file Sample.to_datetime_mdY (Sample.after [Sample.file_C])
                            Sample.file_A))) =
  dict_get Z.eqb 2024%Z (dfs (Sample.after [Sample.file_C])).
Proof.
  apply (proj1 (process_file_appends_to_its_year Sample.to_datetime_mdY
                  (Sample.after [Sample.file_C]) Sample.file_A _ _ reads_ok_file_A)).
  discriminate.
Defined.

(** ** Reconciliation (lines 158-201) *)

Lemma fold_left_preserves {A B : Type} (step : A -> B -> A) (P : A -> Prop) (l : list B) :
  (forall a y, P a -> P (step a y)) -> forall a, P a -> P (fold_left step l a).
Proof.
  intros Hstep. induction l as [|x l IH]; simpl; auto.
Qed.

Lemma fold_left_preserves_In {A B : Type} (step : A -> B -> A) (P : A -> Prop) (l : list B) :
  (forall a y, In y l -> P a -> P (step a y)) -> forall a, P a -> P (fold_left step l a).
Proof.
  induction l as [|x l IH]; simpl; [auto|].
  intros Hstep a Ha. apply IH; auto.
Qed.

Lemma fold_left_establishes {A B : Type} (step : A -> B -> A) (P : A -> Prop)
      (l : list B) (x : B) :
  In x l -> (forall a, P (step a x)) -> (forall a y, P a -> P (step a y)) ->
  forall a, P (fold_left step l a).
Proof.
  intros Hin Hx Hstep. induction l as [|x' l IH]; simpl; [destruct Hin|].
  intros a. destruct Hin as [->|Hin].
  - apply fold_left_preserves; auto.
  - apply IH; auto.
Qed.

Lemma In_unique_cells_Str (s : string) (l seen : list cell) :
  In (Str s) l -> In (Str s) (unique_cells seen l) \/ In (Str s) seen.
Proof.
  revert seen. induction l as [|c l IH]; intros seen; simpl; [tauto|].
  intros [->|Hin].
  - destruct (existsb (cell_eqb (Str s)) seen) eqn:E.
    + right. apply existsb_exists in E. destruct E as (x & Hx & Heq).
      apply cell_eqb_Str in Heq. now subst.
    + left. now left.
  - destruct (existsb (cell_eqb c) seen).
    + apply IH; auto.
    + destruct (IH (c :: seen) Hin) as [H|[<-|H]]; simpl; auto.
Qed.

Lemma unify_blank_row (dts : row Pandas.dtype) (s : string) :
  rzip Pandas.unify_cell dts (blank_row (Str s)) = blank_row (Str s).
Proof. reflexivity. Qed.

Lemma cell_eqb_unify (dt : Pandas.dtype) (c c' : cell) :
  cell_eqb (Pandas.unify_cell dt c) c' = cell_eqb c c'.
Proof. destruct c, dt, c'; reflexivity. Qed.

Lemma In_concat_two (df extra : DataFrame) (r : row cell) :
  In r (df ++ extra) ->
  exists dts, In (rzip Pandas.unify_cell dts r) (Pandas.concat [df; extra]).
Proof.
  intros Hin. unfold Pandas.concat. simpl. rewrite app_nil_r.
  eexists. apply in_map. exact Hin.
Qed.

Lemma add_missing_keeps_blank (existing : list cell) (df df_entry : DataFrame) (s : string) :
  In (blank_row (Str s)) df -> In (blank_row (Str s)) (add_missing existing df df_entry).
Proof.
  intros Hin. unfold add_missing.
  destruct (missing_serial_nums existing df_entry) as [|c m]; auto.
  destruct (In_concat_two df (map blank_row (c :: m)) (blank_row (Str s))) as (dts & H).
  - apply in_or_app. now left.
  - now rewrite unify_blank_row in H.
Qed.

Lemma add_missing_keeps_serial (existing : list cell) (df df_entry : DataFrame) (c : cell) :
  has_serial c df -> has_serial c (add_missing existing df df_entry).
Proof.
  intros (r & Hin & Heq). unfold add_missing.
  destruct (missing_serial_nums existing df_entry) as [|c' m]; [now exists r|].
  destruct (In_concat_two df (map blank_row (c' :: m)) r) as (dts & H).
  - apply in_or_app. now left.
  - eexists. split; [exact H|]. simpl. now rewrite cell_eqb_unify.
Qed.

Lemma add_missing_inserts (existing : list cell) (df df_entry : DataFrame) (s : string) :
  In (Str s) (map SERIAL_NUMBER df_entry) ->
  existsb (cell_eqb (Str s)) existing = false ->
  In (blank_row (Str s)) (add_missing existing df df_entry).
Proof.
  intros Hin Hnew.
  assert (Hm : In (Str s) (missing_serial_nums existing df_entry)).
  { unfold missing_serial_nums. apply filter_In. split.
    - destruct (In_unique_cells_Str s _ [] Hin) as [H|[]]. exact H.
    - now rewrite Hnew. }
  unfold add_missing.
  destruct (missing_serial_nums existing df_entry) as [|c m]; [destruct Hm|].
  destruct (In_concat_two df (map blank_row (c :: m)) (blank_row (Str s))) as (dts & H).
  - apply in_or_app. right. now apply in_map.
  - now rewrite unify_blank_row in H.
Qed.

Lemma insert_missing_inserts (d : list (Z * list DataFrame)) (df : DataFrame)
      (y : Z) (bucket : list DataFrame) (df_entry : DataFrame) (s : string) :
  In (y, bucket) d -> In df_entry bucket ->
  In (Str s) (map SERIAL_NUMBER df_entry) ->
  existsb (cell_eqb (Str s)) (map SERIAL_NUMBER df) = false ->
  In (blank_row (Str s)) (insert_missing d df).
Proof.
  intros Hy He Hs Hnew. unfold insert_missing.
  apply (fold_left_establishes _ (fun acc => In (blank_row (Str s)) acc) d (y, bucket) Hy).
  - intros acc.
    apply (fold_left_establishes _ (fun a => In (blank_row (Str s)) a) bucket df_entry He).
    + intros a. now apply add_missing_inserts.
    + intros a e. apply add_missing_keeps_blank.
  - intros acc [y' b'] Hacc.
    apply fold_left_preserves; auto.
    intros a e. apply add_missing_keeps_blank.
Qed.

Lemma insert_missing_keeps_serial (d : list (Z * list DataFrame)) (df : DataFrame) (c : cell) :
  has_serial c df -> has_serial c (insert_missing d df).
Proof.
  unfold insert_missing. generalize (map SERIAL_NUMBER df). intros existing.
  apply fold_left_preserves. intros acc [y b] Hacc.
  apply fold_left_preserves; auto.
  intros a e. apply add_missing_keeps_serial.
Qed.

Lemma In_unique_cells (c : cell) (l seen : list cell) :
  In c (unique_cells seen l) -> In c l.
Proof.
  revert seen. induction l as [|x l IH]; intros seen; simpl; [tauto|].
  destruct (existsb (cell_eqb x) seen); simpl.
  - intros H. right. eapply IH; eauto.
  - intros [->|H]; [now left|]. right. eapply IH; eauto.
Qed.

Lemma In_concat_two_inv (df extra : DataFrame) (q : row cell) :
  In q (Pandas.concat [df; extra]) ->
  exists dts r, In r (df ++ extra) /\ q = rzip Pandas.unify_cell dts r.
Proof.
  unfold Pandas.concat. simpl. rewrite app_nil_r. intros H.
  apply in_map_iff in H. destruct H as (r & <- & Hr). eauto.
Qed.

Lemma is_frac_unify (dt : Pandas.dtype) (c : cell) :
  Pandas.is_frac (Pandas.unify_cell dt c) = Pandas.is_frac c.
Proof. destruct c, dt; reflexivity. Qed.

Lemma add_missing_no_frac (existing : list cell) (df df_entry : DataFrame) :
  (forall r, In r df_entry -> Pandas.is_frac (SERIAL_NUMBER r) = false) ->
  (forall r, In r df -> Pandas.is_frac (SERIAL_NUMBER r) = false) ->
  forall r, In r (add_missing existing df df_entry) ->
            Pandas.is_frac (SERIAL_NUMBER r) = false.
Proof.
  intros He Hdf r. unfold add_missing.
  destruct (missing_serial_nums existing df_entry) as [|c m] eqn:Em; [apply Hdf|].
  intros Hin. apply In_concat_two_inv in Hin. destruct Hin as (dts & r0 & Hr0 & ->).
  simpl. rewrite is_frac_unify.
  apply in_app_or in Hr0. destruct Hr0 as [H|H]; [now apply Hdf|].
  apply in_map_iff in H. destruct H as (c0 & <- & Hc0). simpl.
  rewrite <- Em in Hc0. unfold missing_serial_nums in Hc0.
  apply filter_In in Hc0. destruct Hc0 as [Hc0 _].
  apply In_unique_cells in Hc0. apply in_map_iff in Hc0.
  destruct Hc0 as (r1 & <- & Hr1). now apply He.
Qed.

(** With an accumulator of strings, no serial number with a fractional
    part enters the frame. *)
Lemma insert_missing_no_frac (d : list (Z * list DataFrame)) (df : DataFrame) :
  text_serials d ->
  (forall r, In r df -> Pandas.is_frac (SERIAL_NUMBER r) = false) ->
  forall r, In r (insert_missing d df) -> Pandas.is_frac (SERIAL_NUMBER r) = false.
Proof.
  intros Hd. unfold insert_missing. generalize (map SERIAL_NUMBER df). intros existing.
  apply (fold_left_preserves_In
           _ (fun acc => forall r, In r acc -> Pandas.is_frac (SERIAL_NUMBER r) = false)).
  intros acc [y b] Hy Hacc.
  apply (fold_left_preserves_In
           _ (fun a => forall r, In r a -> Pandas.is_frac (SERIAL_NUMBER r) = false));
    [|exact Hacc].
  intros a e He Ha. apply add_missing_no_frac; [|exact Ha].
  intros r Hr. destruct (Hd y b e r Hy He Hr) as (s & ->). reflexivity.
Qed.

(** The rows that a call on the serial numbers returns. *)
Lemma on_SERIAL_NUMBER_In (f : cell -> result cell) (df df' : DataFrame) (r' : row cell) :
  Pandas.on_SERIAL_NUMBER f df = Ok df' ->
  (In r' df' <->
   exists r c, In r df /\ f (SERIAL_NUMBER r) = Ok c /\ r' = set_SERIAL_NUMBER c r).
Proof.
  revert df'. induction df as [|r0 df IH]; intros df' H; simpl in H.
  - inversion H. simpl. split; [tauto | intros (r & c & [] & _)].
  - destruct (f (SERIAL_NUMBER r0)) as [c0|e|] eqn:E0; try discriminate.
    destruct (Pandas.on_SERIAL_NUMBER f df) as [rest|e|] eqn:E; try discriminate.
    inversion H; subst. simpl. rewrite (IH rest eq_refl). split.
    + intros [<-|(r & c & Hin & Hf & ->)]; eauto 7.
    + intros (r & c & [->|Hin] & Hf & ->).
      * left. congruence.
      * right. eauto.
Qed.

Lemma on_SERIAL_NUMBER_length (f : cell -> result cell) (df df' : DataFrame) :
  Pandas.on_SERIAL_NUMBER f df = Ok df' -> length df' = length df.
Proof.
  revert df'. induction df as [|r0 df IH]; intros df' H; simpl in H.
  - now inversion H.
  - destruct (f (SERIAL_NUMBER r0)) as [c0|e|]; try discriminate.
    destruct (Pandas.on_SERIAL_NUMBER f df) as [rest|e|]; try discriminate.
    inversion H; subst. simpl. now rewrite (IH rest eq_refl).
Qed.

Lemma on_SERIAL_NUMBER_each (f : cell -> result cell) (df df' : DataFrame) (r : row cell) :
  Pandas.on_SERIAL_NUMBER f df = Ok df' -> In r df ->
  exists c, f (SERIAL_NUMBER r) = Ok c /\ In (set_SERIAL_NUMBER c r) df'.
Proof.
  revert df'. induction df as [|r0 df IH]; intros df' H Hin; simpl in H; [destruct Hin|].
  destruct (f (SERIAL_NUMBER r0)) as [c0|e|] eqn:E0; try discriminate.
  destruct (Pandas.on_SERIAL_NUMBER f df) as [rest|e|] eqn:E; try discriminate.
  inversion H; subst. destruct Hin as [->|Hin].
  - exists c0. split; [exact E0 | now left].
  - destruct (IH rest eq_refl Hin) as (c & Hc & Hr). exists c. split; [exact Hc | now right].
Qed.

Lemma set_SERIAL_NUMBER_same (r : row cell) : set_SERIAL_NUMBER (SERIAL_NUMBER r) r = r.
Proof. now destruct r. Qed.

(** When lines 166-172 do not raise, every serial number of the frame they
    leave is an integer. *)
Lemma coerce_serial_numbers_Int (df df1 : DataFrame) (r : row cell) :
  coerce_serial_numbers df = Ok df1 -> In r df1 -> exists z, SERIAL_NUMBER r = Int z.
Proof.
  unfold coerce_serial_numbers.
  destruct (Pandas.on_SERIAL_NUMBER Pandas.to_numeric_coerce df) as [d1|e|]; try discriminate.
  intros E2 Hin. apply (on_SERIAL_NUMBER_In _ _ _ r E2) in Hin.
  destruct Hin as (r2 & c & Hin2 & Hc & ->).
  apply filter_In in Hin2. destruct Hin2 as [_ Hna]. simpl.
  destruct (SERIAL_NUMBER r2) as [|z|z|s|s]; simpl in *; try discriminate;
    destruct (Z.abs z <=? Pandas.max_exact)%Z; inversion Hc; eauto.
Qed.

(** A row whose serial number [read_csv] took for a number without
    fractional part is kept, with that number as an integer. *)
Lemma coerce_serial_numbers_keeps (df df1 : DataFrame) (r : row cell) (z : Z) :
  coerce_serial_numbers df = Ok df1 ->
  In r df -> SERIAL_NUMBER r = Int z \/ SERIAL_NUMBER r = Flt z ->
  In (set_SERIAL_NUMBER (Int z) r) df1.
Proof.
  unfold coerce_serial_numbers.
  destruct (Pandas.on_SERIAL_NUMBER Pandas.to_numeric_coerce df) as [d1|e|] eqn:E1;
    try discriminate.
  intros E2 Hin Hz.
  assert (Hin1 : In r (Pandas.dropna_SERIAL_NUMBER d1)).
  { apply filter_In. split.
    - apply (on_SERIAL_NUMBER_In _ _ _ r E1). exists r, (SERIAL_NUMBER r).
      split; [exact Hin|]. split; [|now rewrite set_SERIAL_NUMBER_same].
      destruct Hz as [-> | ->]; reflexivity.
    - destruct Hz as [-> | ->]; reflexivity. }
  destruct (on_SERIAL_NUMBER_each _ _ _ r E2 Hin1) as (c & Hc & Hr).
  assert (c = Int z) as ->; [|exact Hr].
  destruct Hz as [Hz | Hz]; rewrite Hz in Hc; simpl in Hc;
    destruct (Z.abs z <=? Pandas.max_exact)%Z; congruence.
Qed.

Lemma Str_not_in_coerced (s : string) (df df1 : DataFrame) :
  coerce_serial_numbers df = Ok df1 ->
  existsb (cell_eqb (Str s)) (map SERIAL_NUMBER df1) = false.
Proof.
  intros Hco. destruct (existsb _ _) eqn:E; auto.
  apply existsb_exists in E. destruct E as (c & Hc & Heq).
  apply in_map_iff in Hc. destruct Hc as (r & <- & Hr).
  apply (coerce_serial_numbers_Int _ _ _ Hco) in Hr. destruct Hr as (z & Hz).
  rewrite Hz in Heq. discriminate.
Qed.

Lemma In_insert_sorted (r q : row cell) (l : DataFrame) :
  In q (Pandas.insert_sorted r l) <-> q = r \/ In q l.
Proof.
  induction l as [|x l IH]; simpl.
  - intuition.
  - destruct (Pandas.key_leb _ _); simpl; rewrite ?IH; intuition.
Qed.

Lemma In_sort_values (df sorted : DataFrame) (q : row cell) :
  Pandas.sort_values_SERIAL_NUMBER df = Ok sorted -> (In q sorted <-> In q df).
Proof.
  unfold Pandas.sort_values_SERIAL_NUMBER.
  destruct (_ && _); [discriminate|].
  destruct (existsb Pandas.is_frac _); [discriminate|].
  intros H. inversion H. subst. clear H.
  induction df as [|r df IH]; simpl; [tauto|].
  rewrite In_insert_sorted, IH. intuition.
Qed.

Lemma length_insert_sorted (r : row cell) (l : DataFrame) :
  length (Pandas.insert_sorted r l) = S (length l).
Proof.
  induction l as [|x l IH]; simpl; [reflexivity|].
  destruct (Pandas.key_leb _ _); simpl; auto.
Qed.

Lemma length_sort_values (df sorted : DataFrame) :
  Pandas.sort_values_SERIAL_NUMBER df = Ok sorted -> length sorted = length df.
Proof.
  unfold Pandas.sort_values_SERIAL_NUMBER.
  destruct (_ && _); [discriminate|].
  destruct (existsb Pandas.is_frac _); [discriminate|].
  intros H. inversion H. subst. clear H.
  induction df as [|r df IH]; simpl; [reflexivity|].
  now rewrite length_insert_sorted, IH.
Qed.

(** A frame without a serial number with a fractional part is sorted, or
    the sort raises [TypeError]. *)
Lemma sort_values_total (df : DataFrame) :
  (forall r, In r df -> Pandas.is_frac (SERIAL_NUMBER r) = false) ->
  (exists sorted, Pandas.sort_values_SERIAL_NUMBER df = Ok sorted) \/
  Pandas.sort_values_SERIAL_NUMBER df = Err TypeError.
Proof.
  intros H. unfold Pandas.sort_values_SERIAL_NUMBER.
  destruct (_ && _); [now right|].
  destruct (existsb Pandas.is_frac (map SERIAL_NUMBER df)) eqn:E; [|left; eauto].
  apply existsb_exists in E. destruct E as (c & Hc & Hf).
  apply in_map_iff in Hc. destruct Hc as (r & <- & Hr).
  rewrite (H r Hr) in Hf. discriminate.
Qed.

Lemma In_reconciled_frame (d : list (Z * list DataFrame)) (df0 df1 : DataFrame) (q : row cell) :
  coerce_serial_numbers df0 = Ok df1 ->
  (In q (reconciled_frame d df0) <-> In q (insert_missing d df1)).
Proof.
  intros Hco. unfold reconciled_frame. rewrite Hco.
  destruct (Pandas.sort_values_SERIAL_NUMBER _) as [sorted|e|] eqn:E; try tauto.
  now apply In_sort_values.
Qed.

Lemma dfs_ok_text_serials (d : list (Z * list DataFrame)) : dfs_ok d -> text_serials d.
Proof.
  intros Hd y b e r Hy He Hr.
  destruct (Hd y b e Hy He) as (r0 & ts & n & -> & Hr0 & _).
  destruct Hr as [<-|[]].
  destruct Hr0 as (_ & _ & _ & _ & _ & (s & Hs & _) & _). eauto.
Qed.

(** A file that is read and whose serial numbers are coerced is reconciled
    and written back. *)
Lemma adding_serial_number_writes (self : ConvertFormat) (fs : gmap string file)
      (path : string) (f : file) (df0 df1 : DataFrame) :
  text_serials (dfs self) ->
  fs !! path = Some f -> Pandas.read_csv f = Ok df0 ->
  coerce_serial_numbers df0 = Ok df1 ->
  exists self',
    adding_serial_number self fs path =
    (self', <[path := Pandas.to_csv (reconciled_frame (dfs self) df0)]> fs, Returned).
Proof.
  intros Ht Hf Hread Hco. unfold adding_serial_number, reconcile, reconciled_frame.
  rewrite Hf, Hread, Hco. cbv zeta.
  destruct (sort_values_total (insert_missing (dfs self) df1)) as [(sorted & ->)| ->].
  - apply insert_missing_no_frac; [exact Ht|].
    intros r Hr. destruct (coerce_serial_numbers_Int _ _ _ Hco Hr) as (z & ->). reflexivity.
  - eexists; reflexivity.
  - eexists; reflexivity.
Qed.


Lemma reachable_after (reports : list report) :
  reachable Sample.to_datetime_mdY (Sample.after reports).
Proof.
  unfold Sample.after.
  assert (H : forall self, reachable Sample.to_datetime_mdY self ->
                reachable Sample.to_datetime_mdY
                          (fst (process_directory Sample.to_datetime_mdY self reports))).
  { induction reports as [|f reports IH]; intros self Hself; simpl; [exact Hself|].
    destruct (PyStr.endswith (filename f) ".csv"); [|now apply IH].
    pose proof (reach_step _ _ f (reach_print _ (filename f) _ Hself)) as Hstep.
    destruct (process_file Sample.to_datetime_mdY (print (filename f) self) f)
      as [self' [|e|]]; simpl in *; auto. }
  apply H. apply reach_init.
Qed.



(** A file whose serial numbers are a text and two numbers: the row of the
    text is dropped and the rows of the numbers are kept. *)
Example text_dropped_numbers_kept :
  Pandas.read_csv (Table [serial_only_line "0000ABC"; serial_only_line "77";
                          serial_only_line "42.0"]) =
    Ok [blank_row (Str "0000ABC"); blank_row (Str "77"); blank_row (Str "42.0")] /\
  coerce_serial_numbers
    [blank_row (Str "0000ABC"); blank_row (Str "77"); blank_row (Str "42.0")] =
    Ok [blank_row (Int 77); blank_row (Int 42)].
Proof. split; reflexivity. Qed.

(** C10.  The loop that inserts missing serial numbers runs over the batches
    of every year of the accumulator, whatever file is being reconciled.
    Take a state that the walk reaches and a file at [path] that is read and
    whose serial numbers are coerced without raising: a serial number
    accumulated under any year [y] that is not among the serial numbers the
    coercion leaves is written to that file, in a line of its own. *)
Theorem missing_serials_come_from_every_year
        (to_datetime : PyStr.pyval -> option Timestamp)
        (self : ConvertFormat) (fs : gmap string file) (path : string)
        (f : file) (df0 df1 : DataFrame)
        (y : Z) (bucket : list DataFrame) (df_entry : DataFrame) (s : string) :
  reachable to_datetime self ->
  fs !! path = Some f -> Pandas.read_csv f = Ok df0 ->
  coerce_serial_numbers df0 = Ok df1 ->
  In (y, bucket) (dfs self) -> In df_entry bucket ->
  In (Str s) (map SERIAL_NUMBER df_entry) ->
  existsb (cell_eqb (Str s)) (map SERIAL_NUMBER df1) = false ->
  exists self' lines,
    adding_serial_number self fs path = (self', <[path := Table lines]> fs, Returned) /\
    In (serial_only_line s) lines.
Proof.
  intros Hreach Hf Hread Hco Hy He Hs Hnew.
  assert (Ht : text_serials (dfs self))
    by (apply dfs_ok_text_serials; eapply reachable_dfs_ok; eauto).
  destruct (adding_serial_number_writes self fs path f df0 df1 Ht Hf Hread Hco)
    as (self' & Heq).
  exists self', (map (rmap Pandas.render) (reconciled_frame (dfs self) df0)).
  split; [exact Heq|].
  change (serial_only_line s) with (rmap Pandas.render (blank_row (Str s))).
  apply in_map. apply (In_reconciled_frame _ _ _ _ Hco).
  eapply insert_missing_inserts; eauto.
Qed.

Lemma missing_serials_come_from_every_year_witness :
  exists self' lines,
    adding_serial_number (Sample.after [Sample.file_A; Sample.file_C])
                         Runs.merged_2024 Runs.path2024 =
    (self', <[Runs.path2024 := Table lines]> Runs.merged_2024, Returned) /\
    In (serial_only_line "0000042") lines.
Proof.
  apply (missing_serials_come_from_every_year
           Sample.to_datetime_mdY
           (Sample.after [Sample.file_A; Sample.file_C]) Runs.merged_2024 Runs.path2024
           (Pandas.to_csv [Runs.record_C])
           [Row (Str "2AC65A-001") (Str "F") (Int 77) NaN NaN (Str "03/11/2024") NaN
                (Str "Lee") (Str "PASSED") (Str "NEEDS TO GO TO FINAL INSPECTION")
                (Int 1)]
           [Row (Str "2AC65A-001") (Str "F") (Int 77) NaN NaN (Str "03/11/2024") NaN
                (Str "Lee") (Str "PASSED") (Str "NEEDS TO GO TO FINAL INSPECTION")
                (Int 1)]
           2023%Z [[set_Test_Number (Int 1) Sample.record_A]]
           [set_Test_Number (Int 1) Sample.record_A] "0000042").
  - apply reachable_after.
  - reflexivity.
  - reflexivity.
  - reflexivity.
  - left. reflexivity.
  - left. reflexivity.
  - left. reflexivity.
  - reflexivity.
Defined.

(** A run over a report of 2023 and one of 2024: each file receives the
    serial number of the other year. *)
Example two_years_cross_insertion :
  Runs.serial_texts (Runs.files_after ∅ [Sample.file_A; Sample.file_C] !! Runs.path2023) =
    ["42"; "0000042"; "0000077"] /\
  Runs.serial_texts (Runs.files_after ∅ [Sample.file_A; Sample.file_C] !! Runs.path2024) =
    ["77"; "0000042"; "0000077"].
Proof. split; vm_compute; reflexivity. Qed.

(** A serial number with a fractional part makes lines 166-172 raise
    [TypeError], which [adding_serial_number] does not catch: nothing is
    printed and no file is written. *)
Lemma adding_serial_number_raises (self : ConvertFormat) (fs : gmap string file)
      (path : string) (f : file) (df0 : DataFrame) (e : exn) :
  fs !! path = Some f -> Pandas.read_csv f = Ok df0 ->
  coerce_serial_numbers df0 = Err e ->
  e = TypeError /\ adding_serial_number self fs path = (self, fs, Raised TypeError).
Proof.
  intros Hf Hread Hco.
  assert (He : e = TypeError).
  { unfold coerce_serial_numbers in Hco.
    assert (Hnum : forall df, Pandas.on_SERIAL_NUMBER Pandas.to_numeric_coerce df <> Err e).
    { induction df as [|r df IH]; simpl; [discriminate|].
      destruct (Pandas.to_numeric_coerce (SERIAL_NUMBER r)) as [c|e'|] eqn:Ec.
      - destruct (Pandas.on_SERIAL_NUMBER _ df); congruence.
      - unfold Pandas.to_numeric_coerce in Ec.
        destruct (SERIAL_NUMBER r); try discriminate.
        destruct (Pandas.classify s); discriminate.
      - discriminate. }
    assert (Hast : forall df, Pandas.on_SERIAL_NUMBER Pandas.astype_Int64 df = Err e ->
                               e = TypeError).
    { induction df as [|r df IH]; simpl; [discriminate|].
      destruct (Pandas.astype_Int64 (SERIAL_NUMBER r)) as [c|e'|] eqn:Ec.
      - destruct (Pandas.on_SERIAL_NUMBER _ df); try discriminate.
        intros H. apply IH. exact H.
      - unfold Pandas.astype_Int64 in Ec.
        destruct (SERIAL_NUMBER r) as [|z|z|s|s]; try discriminate;
          try (destruct (Z.abs z <=? Pandas.max_exact)%Z; discriminate).
        congruence.
      - discriminate. }
    destruct (Pandas.on_SERIAL_NUMBER Pandas.to_numeric_coerce df0) as [d1|e1|] eqn:E1.
    - eapply Hast; eauto.
    - exfalso. apply (Hnum df0). congruence.
    - discriminate. }
  split; [exact He|]. subst e.
  unfold adding_serial_number, reconcile. now rewrite Hf, Hread, Hco.
Qed.

(** C8, where the code departs from it.  The output directory holds a file
    of 2023 with the serial number 1.5; the run is over [file_A], of 2023,
    and [file_C], of 2024.  The merge of line 154 writes the file of 2023
    with the lines of both.  Reconciliation reads it back, line 172 raises
    [TypeError] on the serial number 1.5, [except ValueError] does not
    catch it, and the exception leaves [adding_serial_number] and
    [save_to_csv]: no line is printed, the file of 2023 stays as the merge
    left it, and the file of 2024 is never written. *)
Theorem fractional_serial_aborts_save :
  Pandas.read_csv (Table [serial_only_line "1.5"; Runs.merged_line_A]) =
    Ok [blank_row (Frac "1.5");
        Row (Str "2AC65A-001") (Str "F") (Flt 42) NaN NaN (Str "01/05/2023") NaN
            (Str "Kim") (Str "PASSED") (Str "NEEDS TO GO TO FINAL INSPECTION") (Flt 1)] /\
  coerce_serial_numbers
    [blank_row (Frac "1.5");
     Row (Str "2AC65A-001") (Str "F") (Flt 42) NaN NaN (Str "01/05/2023") NaN
         (Str "Kim") (Str "PASSED") (Str "NEEDS TO GO TO FINAL INSPECTION") (Flt 1)] =
    Err TypeError /\
  is_ValueError TypeError = false /\
  adding_serial_number (Sample.after [Sample.file_A; Sample.file_C])
                       Runs.fraction_merged Runs.path2023 =
    (Sample.after [Sample.file_A; Sample.file_C], Runs.fraction_merged, Raised TypeError) /\
  save_to_csv (Sample.after [Sample.file_A; Sample.file_C]) Runs.fraction_store =
    (Sample.after [Sample.file_A; Sample.file_C], Runs.fraction_merged, Raised TypeError) /\
  Runs.fraction_merged !! Runs.path2024 = None.
Proof.
  split; [vm_compute; reflexivity|]. split; [vm_compute; reflexivity|].
  split; [reflexivity|]. split; [vm_compute; reflexivity|].
  split; [vm_compute; reflexivity|]. vm_compute. reflexivity.
Qed.

(** What C8 says of the sort holds: the frame of [file_A] after the merge
    mixes the integer 42 and the string "0000042", the sort raises, the
    failure is printed and the frame is written back unsorted. *)
Example sort_failure_is_logged :
  exists self',
    adding_serial_number (Sample.after [Sample.file_A]) Runs.merged_first Runs.path2023 =
    (self',
     <[Runs.path2023 :=
         Table [Runs.summary_line_A; serial_only_line "0000042"]]> Runs.merged_first,
     Returned) /\
    last (stdout self') =
    Some ("Error sorting file " +:+ Runs.path2023 +:+ ": " +:+ exn_name TypeError +:+
          ". Skipping sorting operation...").
Proof. eexists. split; vm_compute; reflexivity. Qed.

(** A [ValueError] inside the [try] is caught: the read of an empty file
    raises [EmptyDataError], a subclass. *)
Example read_failure_is_caught :
  adding_serial_number Sample.converter0 Runs.empty_store Runs.path2023 =
  (print ("Error processing file " +:+ Runs.path2023 +:+ ": " +:+
          exn_name EmptyDataError +:+ ". Skipping this file...") Sample.converter0,
   Runs.empty_store, Returned).
Proof. vm_compute. reflexivity. Qed.

(** An exception that is no [ValueError] leaves [adding_serial_number]. *)
Example reconciliation_of_absent_file_raises :
  adding_serial_number Sample.converter0 ∅ Runs.path2023 =
  (Sample.converter0, ∅, Raised FileNotFoundError).
Proof. reflexivity. Qed.

(** ** The header (lines 56-76) *)

Lemma formatted_serial_num_digits_witness :
  formatted_serial_num_of (Sample.header_lines "01/05/2023" "42" "Kim" "PASSED") =
    PyStr.zeros (7 - 2) +:+ "42" /\
  String.length
    (formatted_serial_num_of (Sample.header_lines "01/05/2023" "42" "Kim" "PASSED")) = 7%nat /\
  PyStr.all_digits
    (formatted_serial_num_of (Sample.header_lines "01/05/2023" "42" "Kim" "PASSED")) = true.
Proof.
  apply (formatted_serial_num_digits
           (Sample.header_lines "01/05/2023" "42" "Kim" "PASSED") "42").
  - reflexivity.
  - reflexivity.
  - simpl. lia.
Defined.

(** X10.  The SERIAL NUMBER of a record is never shorter than seven characters
    and never cut: its length is the larger of seven and the length of the
    text of the header value, and a text of seven characters or more is
    taken as it is. *)
Theorem formatted_serial_num_length (lines : list string) :
  String.length (formatted_serial_num_of lines) =
    Nat.max 7 (String.length (PyStr.str (Serial_Number_of lines))) /\
  ((7 <= String.length (PyStr.str (Serial_Number_of lines)))%nat ->
   formatted_serial_num_of lines = PyStr.str (Serial_Number_of lines)).
Proof.
  unfold formatted_serial_num_of. split.
  - apply length_zfill.
  - intros Hlen. unfold PyStr.zfill.
    apply Nat.leb_le in Hlen. now rewrite Hlen.
Qed.

Lemma formatted_serial_num_length_witness :
  formatted_serial_num_of (Sample.header_lines "01/05/2023" "12345678" "Kim" "PASSED") =
  "12345678".
Proof.
  apply (proj2 (formatted_serial_num_length
                  (Sample.header_lines "01/05/2023" "12345678" "Kim" "PASSED"))).
  simpl. lia.
Defined.

Lemma split_colon_space_no_separator (s : string) :
  contains_colon_space s = false -> PyStr.split_colon_space s = [s].
Proof.
  induction s as [|c s IH]; simpl; [reflexivity|].
  intros H. apply orb_false_iff in H. destruct H as [Hhere Hrest].
  rewrite (IH Hrest). simpl.
  destruct (Ascii.eqb c ":"); [|reflexivity].
  destruct s as [|c2 s']; [reflexivity|].
  simpl in Hhere. now rewrite Hhere.
Qed.

Lemma split_colon_space_at_separator (K V : string) :
  contains_colon_space K = false ->
  PyStr.split_colon_space (K +:+ ": " +:+ V) = K :: PyStr.split_colon_space V.
Proof.
  induction K as [|c K IH]; [reflexivity|].
  intros H. simpl in H. apply orb_false_iff in H. destruct H as [Hhere Hrest].
  specialize (IH Hrest).
  change (String c K +:+ ": " +:+ V) with (String c (K +:+ ": " +:+ V)).
  cbn [PyStr.split_colon_space]. rewrite IH. simpl PyStr.cons_head.
  destruct (Ascii.eqb c ":"); [|reflexivity].
  destruct K as [|c2 K']; [reflexivity|].
  simpl in Hhere. simpl. now rewrite Hhere.
Qed.

(** X11.  How a header line is read.  With no ": " in [K] and none in [V]: the
    line "K: V" gives the category [K] with the value [V]; the line [K]
    alone gives the category [K] with the value [None]; and of the line
    "K: V: W" only [V] is kept as the value, the text after the second
    separator is lost. *)
Theorem header_line_category_and_value (K V W : string) :
  contains_colon_space K = false -> contains_colon_space V = false ->
  category_entry (K +:+ ": " +:+ V) = (K, Some V) /\
  category_entry K = (K, None) /\
  category_entry (K +:+ ": " +:+ V +:+ ": " +:+ W) = (K, Some V).
Proof.
  intros HK HV. unfold category_entry. split; [|split].
  - rewrite (split_colon_space_at_separator K V HK).
    now rewrite (split_colon_space_no_separator V HV).
  - now rewrite (split_colon_space_no_separator K HK).
  - rewrite (split_colon_space_at_separator K _ HK).
    now rewrite (split_colon_space_at_separator V W HV).
Qed.

Lemma header_line_category_and_value_witness :
  category_entry "Serial Number: 42" = ("Serial Number", Some "42") /\
  category_entry "Serial Number" = ("Serial Number", None) /\
  category_entry "Serial Number: 42: rework" = ("Serial Number", Some "42").
Proof.
  exact (header_line_category_and_value "Serial Number" "42" "rework" eq_refl eq_refl).
Defined.

Lemma dict_set_fresh (k : string) (v : PyStr.pyval) (d : list (string * PyStr.pyval)) :
  ~ In k (map fst d) -> dict_set String.eqb k v d = d ++ [(k, v)].
Proof.
  induction d as [|[k0 v0] d IH]; simpl; intros Hnotin; [reflexivity|].
  destruct (String.eqb_spec k0 k) as [->|Hne].
  - exfalso. apply Hnotin. now left.
  - rewrite IH; [reflexivity|]. intros Hin. apply Hnotin. now right.
Qed.

Lemma length_dict_set (k : string) (v : PyStr.pyval) (d : list (string * PyStr.pyval)) :
  (length (dict_set String.eqb k v d) <= S (length d))%nat.
Proof.
  induction d as [|[k0 v0] d IH]; simpl; [lia|].
  destruct (String.eqb k0 k); simpl; lia.
Qed.

Lemma fold_category_dict_distinct (lines : list string) (d : list (string * PyStr.pyval)) :
  List.NoDup (map fst d ++ map category_of lines) ->
  fold_left (fun d' line => let '(k, v) := category_entry line in dict_set String.eqb k v d')
            lines d =
  d ++ map category_entry lines.
Proof.
  revert d. induction lines as [|line lines IH]; intros d Hnd; simpl.
  - now rewrite app_nil_r.
  - simpl in Hnd. unfold category_of at 1 in Hnd.
    destruct (category_entry line) as [k v] eqn:E. simpl in Hnd.
    rewrite dict_set_fresh.
    + rewrite IH.
      * now rewrite <- app_assoc.
      * rewrite map_app. simpl. now rewrite <- app_assoc.
    + apply List.NoDup_remove_2 in Hnd. intros Hin. apply Hnd.
      apply in_or_app. now left.
Qed.

Lemma fold_category_dict_length (lines : list string) (d : list (string * PyStr.pyval)) :
  (length (fold_left (fun d' line =>
                        let '(k, v) := category_entry line in dict_set String.eqb k v d')
                     lines d) <= length d + length lines)%nat.
Proof.
  revert d. induction lines as [|line lines IH]; intros d; simpl; [lia|].
  destruct (category_entry line) as [k v].
  specialize (IH (dict_set String.eqb k v d)).
  pose proof (length_dict_set k v d). lia.
Qed.

(** X12.  The header values are taken by position among the distinct categories.
    There are never more values than header lines; when the categories of
    the lines are pairwise different, the values are those of the lines, in
    the order of the lines, so that the serial number is read from the
    fourth line and the test date from the second. *)
Theorem header_values_by_position (lines : list string) :
  (length (header_values lines) <= length lines)%nat /\
  (List.NoDup (map category_of lines) ->
   header_values lines = map (fun line => snd (category_entry line)) lines).
Proof.
  unfold header_values, build_category_dict. split.
  - rewrite length_map. apply (fold_category_dict_length lines []).
  - intros Hnd. rewrite (fold_category_dict_distinct lines [] Hnd). simpl.
    now rewrite map_map.
Qed.

Lemma header_values_by_position_witness :
  header_values (Sample.header_lines "01/05/2023" "42" "Kim" "PASSED") =
  [Some "ATP"; Some "01/05/2023"; Some "2AC65A-001"; Some "42"; Some "Kim"; Some "PASSED"].
Proof.
  apply (proj2 (header_values_by_position
                  (Sample.header_lines "01/05/2023" "42" "Kim" "PASSED"))).
  vm_compute. repeat constructor; simpl; intuition discriminate.
Defined.

(** Two header lines with the same category make one entry, with the value
    of the later line at the place of the earlier: the positions after it
    move up, and the operator is read where the serial number is expected. *)
Example repeated_category_shifts_positions :
  header_values [ "Report Name: ATP"; "Test Date: 01/05/2023"; "Report Name: again";
                  "Serial Number: 42"; "Operator: Kim"; "Test Result: PASSED" ] =
    [Some "again"; Some "01/05/2023"; Some "42"; Some "Kim"; Some "PASSED"] /\
  Serial_Number_of [ "Report Name: ATP"; "Test Date: 01/05/2023"; "Report Name: again";
                     "Serial Number: 42"; "Operator: Kim"; "Test Result: PASSED" ] =
    Some "Kim".
Proof. split; reflexivity. Qed.

(** ** Further properties of the merge (lines 135-201) *)

Lemma row_eqb_refl (r : row cell) : row_eqb r r = true.
Proof.
  unfold row_eqb, rall. simpl. now rewrite !cell_eqb_refl.
Qed.

Lemma drop_duplicates_from_sound (seen : list (row cell)) (df : DataFrame) (r : row cell) :
  In r (Pandas.drop_duplicates_from seen df) ->
  In r df /\ existsb (row_eqb r) seen = false.
Proof.
  revert seen. induction df as [|x df IH]; intros seen; simpl; [tauto|].
  destruct (existsb (row_eqb x) seen) eqn:E.
  - intros Hin. destruct (IH _ Hin). auto.
  - intros [<-|Hin]; [auto|].
    destruct (IH _ Hin) as [Hdf Hseen]. split; [auto|].
    simpl in Hseen. apply orb_false_iff in Hseen. tauto.
Qed.

Lemma drop_duplicates_from_complete (seen : list (row cell)) (df : DataFrame) (r : row cell) :
  In r df ->
  existsb (row_eqb r) seen = true \/
  exists q, In q (Pandas.drop_duplicates_from seen df) /\ row_eqb r q = true.
Proof.
  revert seen. induction df as [|x df IH]; intros seen; simpl; [tauto|].
  intros [->|Hin].
  - destruct (existsb (row_eqb r) seen) eqn:E; [now left|].
    right. exists r. split; [now left | apply row_eqb_refl].
  - destruct (existsb (row_eqb x) seen) eqn:E; [now apply IH|].
    destruct (IH (x :: seen) Hin) as [Hseen|(q & Hq & Heq)].
    + simpl in Hseen. apply orb_true_iff in Hseen. destruct Hseen as [Hx|Hseen]; [|now left].
      right. exists x. split; [now left | exact Hx].
    + right. exists q. split; [now right | exact Heq].
Qed.

Lemma drop_duplicates_from_distinct (seen : list (row cell)) (df : DataFrame) :
  distinct_rows (Pandas.drop_duplicates_from seen df).
Proof.
  revert seen. induction df as [|x df IH]; intros seen; simpl; [exact I|].
  destruct (existsb (row_eqb x) seen); [apply IH|].
  simpl. split; [|apply IH].
  intros q Hq. apply drop_duplicates_from_sound in Hq. destruct Hq as [_ Hseen].
  simpl in Hseen. apply orb_false_iff in Hseen. tauto.
Qed.

(** X13.  The merge with a file that exists (line 152) writes a frame in which no
    two rows are equal in every column, made of rows of the file and of the
    accumulated frame; every row of either has an equal row in it. *)
Theorem merged_frame_has_no_equal_rows
        (fs : gmap string file) (output_path : string) (f : file)
        (existing_data : DataFrame) (dataframes : list DataFrame) :
  fs !! output_path = Some f -> Pandas.read_csv f = Ok existing_data ->
  exists df,
    merged_frame fs output_path dataframes = Ok df /\
    distinct_rows df /\
    (forall q, In q df ->
               In q (Pandas.concat [existing_data; Pandas.concat dataframes])) /\
    (forall r, In r (Pandas.concat [existing_data; Pandas.concat dataframes]) ->
               exists q, In q df /\ row_eqb r q = true).
Proof.
  intros Hf Hread. unfold merged_frame. rewrite Hf, Hread.
  eexists. split; [reflexivity|]. unfold Pandas.drop_duplicates. split; [|split].
  - apply drop_duplicates_from_distinct.
  - intros q Hq. now apply drop_duplicates_from_sound in Hq.
  - intros r Hr.
    destruct (drop_duplicates_from_complete [] _ r Hr) as [Hseen|H]; [discriminate|exact H].
Qed.

Lemma merged_frame_has_no_equal_rows_witness :
  exists df,
    merged_frame Runs.merged_first Runs.path2023
                 [[set_Test_Number (Int 1) Sample.record_A]] = Ok df /\
    distinct_rows df.
Proof.
  destruct (merged_frame_has_no_equal_rows
              Runs.merged_first Runs.path2023
              (Pandas.to_csv [set_Test_Number (Int 1) Sample.record_A])
              [Row (Str "2AC65A-001") (Str "F") (Int 42) NaN NaN (Str "01/05/2023") NaN
                   (Str "Kim") (Str "PASSED") (Str "NEEDS TO GO TO FINAL INSPECTION")
                   (Int 1)]
              [[set_Test_Number (Int 1) Sample.record_A]] eq_refl eq_refl)
    as (df & Heq & Hd & _).
  exists df. split; [exact Heq | exact Hd].
Defined.

Lemma adding_serial_number_frame (self self' : ConvertFormat) (fs fs' : gmap string file)
      (path : string) (o : outcome) :
  adding_serial_number self fs path = (self', fs', o) ->
  dfs self' = dfs self /\
  output_directory self' = output_directory self /\
  (forall p, p <> path -> fs' !! p = fs !! p) /\
  (forall p, is_Some (fs !! p) -> is_Some (fs' !! p)).
Proof.
  assert (Hins : forall (x : file) (p : string),
             is_Some (fs !! p) -> is_Some (<[path := x]> fs !! p)).
  { intros x p Hp. destruct (decide (path = p)) as [->|Hne].
    - rewrite lookup_insert_eq. eauto.
    - now rewrite lookup_insert_ne. }
  unfold adding_serial_number, reconcile.
  destruct (fs !! path) as [f|] eqn:Hf.
  - destruct (Pandas.read_csv f) as [df0|e|] eqn:Hread.
    + destruct (coerce_serial_numbers df0) as [df1|e|].
      * destruct (Pandas.sort_values_SERIAL_NUMBER _); intros H; inversion H; subst; simpl;
          (repeat split; auto; intros p Hp; now rewrite lookup_insert_ne).
      * destruct (is_ValueError e); intros H; inversion H; subst; simpl; auto.
      * intros H; inversion H; subst; simpl; auto.
    + destruct (is_ValueError e); intros H; inversion H; subst; simpl; auto.
    + intros H; inversion H; subst; simpl; auto.
  - simpl. intros H. inversion H; subst. auto.
Qed.

Lemma save_year_frame (self self' : ConvertFormat) (fs fs' : gmap string file)
      (y : Z) (dataframes : list DataFrame) (o : outcome) :
  save_year self fs (y, dataframes) = (self', fs', o) ->
  dfs self' = dfs self /\
  output_directory self' = output_directory self /\
  (forall p, p <> output_path_of self y -> fs' !! p = fs !! p) /\
  (forall p, is_Some (fs !! p) -> is_Some (fs' !! p)) /\
  (o = Returned -> is_Some (fs' !! output_path_of self y)).
Proof.
  unfold save_year.
  destruct (merged_frame fs (output_path_of self y) dataframes) as [df|e|].
  - intros H. apply adding_serial_number_frame in H.
    destruct H as (Hd & Ho & Hother & Hsome). repeat split; auto.
    + intros p Hp. rewrite (Hother p Hp). now rewrite lookup_insert_ne.
    + intros p Hp. apply Hsome.
      destruct (decide (output_path_of self y = p)) as [->|Hne].
      * rewrite lookup_insert_eq. eauto.
      * now rewrite lookup_insert_ne.
    + intros _. apply Hsome. rewrite lookup_insert_eq. eauto.
  - intros H. inversion H; subst. repeat split; auto. discriminate.
  - intros H. inversion H; subst. repeat split; auto. discriminate.
Qed.

Lemma save_items_frame (items : list (Z * list DataFrame)) (self self' : ConvertFormat)
      (fs fs' : gmap string file) (o : outcome) :
  save_items self fs items = (self', fs', o) ->
  dfs self' = dfs self /\
  output_directory self' = output_directory self /\
  (forall p, (forall y, In y (map fst items) -> p <> output_path_of self y) ->
             fs' !! p = fs !! p) /\
  (forall p, is_Some (fs !! p) -> is_Some (fs' !! p)) /\
  (o = Returned ->
   forall y, In y (map fst items) -> is_Some (fs' !! output_path_of self y)).
Proof.
  revert self fs. induction items as [|[y dataframes] items IH]; intros self fs.
  - simpl. intros H. inversion H; subst. repeat split; auto. intros _ y [].
  - cbn [save_items].
    destruct (save_year self fs (y, dataframes)) as [[self1 fs1] o1] eqn:Hyear.
    apply save_year_frame in Hyear.
    destruct Hyear as (Hd1 & Ho1 & Hother1 & Hsome1 & Hret1).
    assert (Hpath : forall y', output_path_of self1 y' = output_path_of self y').
    { intros y'. unfold output_path_of. now rewrite Ho1. }
    destruct o1 as [|e|].
    + intros H. apply IH in H. destruct H as (Hd & Ho & Hother & Hsome & Hret).
      split; [congruence|]. split; [congruence|]. split; [|split].
      * intros p Hp. rewrite Hother, Hother1.
        -- reflexivity.
        -- apply Hp. simpl. auto.
        -- intros y' Hy'. rewrite Hpath. apply Hp. simpl. auto.
      * intros p Hp. auto.
      * intros Hr y' Hin. simpl in Hin. destruct Hin as [<-|Hy'].
        -- apply Hsome. auto.
        -- rewrite <- Hpath. auto.
    + intros H. inversion H; subst. split; [auto|]. split; [auto|]. split; [|split].
      * intros p Hp. apply Hother1. apply Hp. simpl. auto.
      * auto.
      * discriminate.
    + intros H. inversion H; subst. split; [auto|]. split; [auto|]. split; [|split].
      * intros p Hp. apply Hother1. apply Hp. simpl. auto.
      * auto.
      * discriminate.
Qed.

(** X15.  [save_to_csv] reads the accumulator and does not change it; it never
    removes a file of the output directory; and it changes no file but the
    files "Filename <year>.csv" of the years of the accumulator.  This holds
    whether the method returns or raises. *)
Theorem save_to_csv_touches_year_files_only
        (self self' : ConvertFormat) (fs fs' : gmap string file) (o : outcome) :
  save_to_csv self fs = (self', fs', o) ->
  dfs self' = dfs self /\
  (forall p, is_Some (fs !! p) -> is_Some (fs' !! p)) /\
  (forall p, (forall y, In y (map fst (dfs self)) -> p <> output_path_of self y) ->
             fs' !! p = fs !! p).
Proof.
  unfold save_to_csv. intros H. apply save_items_frame in H. tauto.
Qed.

Lemma save_to_csv_touches_year_files_only_witness :
  dfs (fst (fst (save_to_csv (Sample.after [Sample.file_A]) Runs.merged_2024))) =
  dfs (Sample.after [Sample.file_A]) /\
  snd (fst (save_to_csv (Sample.after [Sample.file_A]) Runs.merged_2024)) !! Runs.path2024 =
  Runs.merged_2024 !! Runs.path2024.
Proof.
  destruct (save_to_csv_touches_year_files_only
              (Sample.after [Sample.file_A])
              (fst (fst (save_to_csv (Sample.after [Sample.file_A]) Runs.merged_2024)))
              Runs.merged_2024
              (snd (fst (save_to_csv (Sample.after [Sample.file_A]) Runs.merged_2024)))
              (snd (save_to_csv (Sample.after [Sample.file_A]) Runs.merged_2024)))
    as (Hd & _ & Hother).
  - now destruct (save_to_csv (Sample.after [Sample.file_A]) Runs.merged_2024) as [[a b] c].
  - split; [exact Hd|]. apply Hother.
    intros y Hy. vm_compute in Hy. destruct Hy as [<-|[]].
    vm_compute. discriminate.
Defined.

(** X16.  When [save_to_csv] returns, the output directory holds a file
    "Filename <year>.csv" for every year of the accumulator. *)
Theorem save_to_csv_writes_every_year
        (self self' : ConvertFormat) (fs fs' : gmap string file) (y : Z) :
  save_to_csv self fs = (self', fs', Returned) ->
  In y (map fst (dfs self)) ->
  is_Some (fs' !! output_path_of self y).
Proof.
  unfold save_to_csv. intros H Hy. apply save_items_frame in H.
  destruct H as (_ & _ & _ & _ & Hret). now apply Hret.
Qed.

Lemma save_to_csv_writes_every_year_witness :
  is_Some (snd (fst (save_to_csv (Sample.after [Sample.file_A; Sample.file_C]) ∅))
             !! output_path_of (Sample.after [Sample.file_A; Sample.file_C]) 2024%Z).
Proof.
  apply (save_to_csv_writes_every_year
           (Sample.after [Sample.file_A; Sample.file_C])
           (fst (fst (save_to_csv (Sample.after [Sample.file_A; Sample.file_C]) ∅)))
           ∅
           (snd (fst (save_to_csv (Sample.after [Sample.file_A; Sample.file_C]) ∅)))
           2024%Z).
  - vm_compute. reflexivity.
  - vm_compute. right. left. reflexivity.
Defined.

(** X17.  A file of a year that exists and is empty makes [save_to_csv] raise:
    the read of line 150 is outside every [try].  Nothing is written, for
    that year or for the years after it. *)
Theorem save_to_csv_raises_on_empty_file
        (self : ConvertFormat) (fs : gmap string file)
        (y : Z) (dataframes : list DataFrame) (rest : list (Z * list DataFrame)) :
  dfs self = (y, dataframes) :: rest ->
  fs !! output_path_of self y = Some EmptyFile ->
  save_to_csv self fs = (self, fs, Raised EmptyDataError).
Proof.
  intros Hd Hf. unfold save_to_csv. rewrite Hd. simpl.
  unfold merged_frame. now rewrite Hf.
Qed.

Lemma save_to_csv_raises_on_empty_file_witness :
  save_to_csv (Sample.after [Sample.file_A; Sample.file_C]) Runs.empty_store =
  (Sample.after [Sample.file_A; Sample.file_C], Runs.empty_store, Raised EmptyDataError).
Proof.
  apply (save_to_csv_raises_on_empty_file
           (Sample.after [Sample.file_A; Sample.file_C]) Runs.empty_store 2023%Z
           [[set_Test_Number (Int 1) Sample.record_A]] [(2024%Z, [[Runs.record_C]])]).
  - reflexivity.
  - reflexivity.
Defined.

(** ** The sort of the reconciled frame (lines 191-198) *)

(** With a fresh converter nothing is inserted, the serial numbers are all
    integers and the file is written back in ascending order. *)
Example numbers_are_sorted :
  exists self',
    adding_serial_number Sample.converter0 Runs.unsorted_store Runs.path2023 =
    (self',
     <[Runs.path2023 := Table [serial_only_line "42"; serial_only_line "77"]]>
       Runs.unsorted_store,
     Returned).
Proof. eexists. vm_compute. reflexivity. Qed.

(** X19.  Take a file that is read and whose serial numbers lines 166-172
    coerce without raising.  When the file holds a row whose serial number
    was read as a number and the accumulator holds a record whose serial
    number is a string, as every record that [process_file] builds does, the
    sort of line 193 raises [TypeError]: the reconciled frame mixes integers
    and strings.  The failure is printed and the frame is written back
    unsorted. *)
Theorem sort_raises_on_accumulated_strings
        (self : ConvertFormat) (fs : gmap string file) (path : string)
        (f : file) (df0 df1 : DataFrame) (r : row cell) (z : Z)
        (y : Z) (bucket : list DataFrame) (df_entry : DataFrame) (s : string) :
  fs !! path = Some f -> Pandas.read_csv f = Ok df0 ->
  coerce_serial_numbers df0 = Ok df1 ->
  In r df0 -> SERIAL_NUMBER r = Int z \/ SERIAL_NUMBER r = Flt z ->
  In (y, bucket) (dfs self) -> In df_entry bucket ->
  In (Str s) (map SERIAL_NUMBER df_entry) ->
  Pandas.sort_values_SERIAL_NUMBER (insert_missing (dfs self) df1) = Err TypeError /\
  exists self',
    adding_serial_number self fs path =
    (self', <[path := Pandas.to_csv (insert_missing (dfs self) df1)]> fs, Returned) /\
    last (stdout self') =
    Some ("Error sorting file " +:+ path +:+ ": " +:+ exn_name TypeError +:+
          ". Skipping sorting operation...").
Proof.
  intros Hf Hread Hco Hr Hz Hy He Hs.
  assert (Hsort : Pandas.sort_values_SERIAL_NUMBER (insert_missing (dfs self) df1) =
                  Err TypeError).
  { unfold Pandas.sort_values_SERIAL_NUMBER.
    assert (Hstr : existsb Pandas.is_str
                     (map SERIAL_NUMBER (insert_missing (dfs self) df1)) = true).
    { apply existsb_exists. exists (Str s). split; [|reflexivity].
      apply in_map_iff. exists (blank_row (Str s)). split; [reflexivity|].
      eapply insert_missing_inserts; eauto. now apply (Str_not_in_coerced s df0). }
    assert (Hnum : existsb Pandas.is_number
                     (map SERIAL_NUMBER (insert_missing (dfs self) df1)) = true).
    { destruct (insert_missing_keeps_serial (dfs self) df1 (Int z)) as (r' & Hr' & Heq).
      - exists (set_SERIAL_NUMBER (Int z) r). split.
        + now apply (coerce_serial_numbers_keeps df0).
        + simpl. apply Z.eqb_refl.
      - apply existsb_exists. exists (SERIAL_NUMBER r'). split; [now apply in_map|].
        destruct (SERIAL_NUMBER r'); simpl in *; auto; discriminate. }
    now rewrite Hstr, Hnum. }
  split; [exact Hsort|].
  unfold adding_serial_number, reconcile. rewrite Hf, Hread, Hco. cbv zeta. rewrite Hsort.
  eexists. split; [reflexivity|]. simpl. apply last_snoc.
Qed.

Lemma sort_raises_on_accumulated_strings_witness :
  exists self',
    adding_serial_number (Sample.after [Sample.file_A]) Runs.unsorted_store Runs.path2023 =
    (self',
     <[Runs.path2023 :=
         Table [serial_only_line "77"; serial_only_line "42"; serial_only_line "0000042"]]>
       Runs.unsorted_store,
     Returned) /\
    last (stdout self') =
    Some ("Error sorting file " +:+ Runs.path2023 +:+ ": " +:+ exn_name TypeError +:+
          ". Skipping sorting operation...").
Proof.
  apply (proj2 (sort_raises_on_accumulated_strings
                  (Sample.after [Sample.file_A]) Runs.unsorted_store Runs.path2023
                  (Table [serial_only_line "77"; serial_only_line "42"])
                  [blank_row (Int 77); blank_row (Int 42)]
                  [blank_row (Int 77); blank_row (Int 42)]
                  (blank_row (Int 77)) 77%Z
                  2023%Z [[set_Test_Number (Int 1) Sample.record_A]]
                  [set_Test_Number (Int 1) Sample.record_A] "0000042"
                  eq_refl eq_refl eq_refl (or_introl eq_refl) (or_introl eq_refl)
                  (or_introl eq_refl) (or_introl eq_refl) (or_introl eq_refl))).
Defined.

(** ** The script (lines 203-211) *)

Lemma process_file_date_fails (to_datetime : PyStr.pyval -> option Timestamp)
      (self : ConvertFormat) (f : report) :
  date_fails to_datetime f -> process_file to_datetime self f = (self, Raised ValueError).
Proof.
  intros (Hcsv & data & lines & Hb & Hres & Hsize & Hh & Hdate).
  unfold is_csv in Hcsv. unfold process_file. rewrite Hcsv, Hb, Hh, Hdate. simpl.
  apply N.eqb_neq in Hsize. rewrite Hsize.
  destruct (add_body_comments data); [reflexivity | congruence].
Qed.

(** A report is always within the development: [process_file] returns or
    raises. *)
Lemma process_file_outcome (to_datetime : PyStr.pyval -> option Timestamp)
      (self : ConvertFormat) (f : report) :
  snd (process_file to_datetime self f) <> Unmodelled.
Proof.
  unfold process_file.
  destruct (negb _); [discriminate|].
  destruct (body f) as [data| |msg]; try discriminate.
  destruct (getsize f =? 0)%N; [discriminate|].
  destruct (header f) as [lines| |msg]; try discriminate.
  destruct (add_body_comments data); [|discriminate].
  destruct (to_datetime _); discriminate.
Qed.

Lemma walk_raises_on_bad_date (to_datetime : PyStr.pyval -> option Timestamp)
      (files : list report) (f : report) (self : ConvertFormat) :
  In f files -> date_fails to_datetime f ->
  exists self' e, process_directory to_datetime self files = (self', Raised e).
Proof.
  revert self. induction files as [|f0 files IH]; intros self Hin Hbad; [destruct Hin|].
  simpl. destruct Hin as [->|Hin].
  - destruct Hbad as [Hcsv Hrest]. unfold is_csv in Hcsv. rewrite Hcsv.
    rewrite (process_file_date_fails to_datetime _ f (conj Hcsv Hrest)). eauto.
  - destruct (PyStr.endswith (filename f0) ".csv"); [|now apply IH].
    pose proof (process_file_outcome to_datetime (print (filename f0) self) f0) as Hout.
    destruct (process_file to_datetime (print (filename f0) self) f0) as [self1 [|e|]].
    + now apply IH.
    + eauto.
    + now destruct Hout.
Qed.

(** X20.  One report whose test date does not parse, anywhere among the files of
    the walk, ends the script with an exception before the save: no
    consolidated file is written or changed, whatever the other reports
    hold. *)
Theorem script_saves_nothing_after_bad_date
        (to_datetime : PyStr.pyval -> option Timestamp) (output_dir : string)
        (reports : list report) (f : report) (fs : gmap string file) :
  In f reports -> date_fails to_datetime f ->
  exists converter e, script to_datetime output_dir reports fs = (converter, fs, Raised e).
Proof.
  intros Hin Hbad. unfold script.
  destruct (walk_raises_on_bad_date to_datetime reports f (init output_dir) Hin Hbad)
    as (self' & e & ->).
  eauto.
Qed.

Lemma script_saves_nothing_after_bad_date_witness :
  exists converter e,
    script Sample.to_datetime_mdY "out"
           [Sample.file_A; Sample.file_bad_date; Sample.file_C] ∅ =
    (converter, ∅, Raised e).
Proof.
  apply (script_saves_nothing_after_bad_date Sample.to_datetime_mdY "out"
           [Sample.file_A; Sample.file_bad_date; Sample.file_C] Sample.file_bad_date ∅).
  - right. left. reflexivity.
  - split; [reflexivity|].
    exists Sample.body3, (Sample.header_lines "not a date" "43" "Kim" "PASSED").
    repeat split; try reflexivity; discriminate.
Defined.

(** The end-to-end scenario of the specification, run by the script on an
    empty output directory: the file of 2023 holds the two summary lines,
    both with serial number 42 and Test Number 2.0, and after them one line
    with the serial number "0000042" alone for each of the two records. *)
Example script_end_to_end :
  snd (fst (script Sample.to_datetime_mdY "out" [Sample.file_A; Sample.file_B] ∅))
      !! Runs.path2023 =
  Some (Table
          [ {| PART_NUMBER := "2AC65A-001"; REVISION := "F"; SERIAL_NUMBER := "42";
               BUILD_DATE := ""; ASSEMBLER := ""; TEST_DATE := "01/05/2023";
               REBUILD_DATE := ""; TEST_OPERATOR := "Kim"; TEST_RESULT := "PASSED";
               COMMENTS := "NEEDS TO GO TO FINAL INSPECTION"; Test_Number := "2.0" |};
            {| PART_NUMBER := "2AC65A-001"; REVISION := "F"; SERIAL_NUMBER := "42";
               BUILD_DATE := ""; ASSEMBLER := ""; TEST_DATE := "02/10/2023";
               REBUILD_DATE := ""; TEST_OPERATOR := "Kim"; TEST_RESULT := "FAILED";
               COMMENTS := "FAILED"; Test_Number := "2.0" |};
            serial_only_line "0000042";
            serial_only_line "0000042" ]).
Proof. vm_compute. reflexivity. Qed.

(** ** How many lines reconciliation adds (lines 175-187) *)

Lemma length_concat_two (df extra : DataFrame) :
  length (Pandas.concat [df; extra]) = (length df + length extra)%nat.
Proof.
  unfold Pandas.concat. simpl. now rewrite length_map, app_nil_r, length_app.
Qed.

Lemma add_missing_length (existing : list cell) (df : DataFrame) (r : row cell) (s : string) :
  existsb (cell_eqb (Str s)) existing = false ->
  SERIAL_NUMBER r = Str s ->
  length (add_missing existing df [r]) = S (length df).
Proof.
  intros Hnew Hs. unfold add_missing, missing_serial_nums. simpl.
  rewrite Hs, Hnew. simpl. rewrite length_concat_two. simpl. lia.
Qed.

Lemma fold_add_missing_length (existing : list cell) (bucket : list DataFrame) (df : DataFrame) :
  (forall s, existsb (cell_eqb (Str s)) existing = false) ->
  (forall df_entry, In df_entry bucket -> exists r, df_entry = [r] /\ record_ok r) ->
  length (fold_left (add_missing existing) bucket df) =
  (length df + length (rows_of bucket))%nat.
Proof.
  intros Hnew. revert df. induction bucket as [|e bucket IH]; intros df Hb; simpl.
  - unfold rows_of. simpl. lia.
  - destruct (Hb e (or_introl eq_refl)) as (r & -> & Hr).
    destruct Hr as (_ & _ & _ & _ & _ & (s & Hs & _) & _).
    rewrite IH.
    + rewrite (add_missing_length existing df r s (Hnew s) Hs).
      unfold rows_of. simpl. lia.
    + intros e' He'. apply Hb. now right.
Qed.

Lemma insert_missing_length (d : list (Z * list DataFrame)) (df0 df1 : DataFrame) :
  coerce_serial_numbers df0 = Ok df1 ->
  (forall y bucket df_entry,
      In (y, bucket) d -> In df_entry bucket -> exists r, df_entry = [r] /\ record_ok r) ->
  length (insert_missing d df1) = (length df1 + total_records d)%nat.
Proof.
  intros Hco. unfold insert_missing, total_records.
  assert (Hnew : forall s, existsb (cell_eqb (Str s)) (map SERIAL_NUMBER df1) = false)
    by (intros s; now apply (Str_not_in_coerced s df0)).
  revert Hnew. generalize (map SERIAL_NUMBER df1) as existing.
  clear Hco. revert df1.
  induction d as [|[y bucket] d IH]; intros df existing Hnew Hd; simpl.
  - lia.
  - rewrite IH; auto.
    + rewrite fold_add_missing_length; auto.
      * lia.
      * intros e He. apply (Hd y bucket e); auto. now left.
    + intros y' b' e' Hin He'. apply (Hd y' b' e'); auto. now right.
Qed.

Lemma length_reconciled_frame (d : list (Z * list DataFrame)) (df0 df1 : DataFrame) :
  coerce_serial_numbers df0 = Ok df1 ->
  length (reconciled_frame d df0) = length (insert_missing d df1).
Proof.
  intros Hco. unfold reconciled_frame. rewrite Hco.
  destruct (Pandas.sort_values_SERIAL_NUMBER _) as [sorted|e|] eqn:E; try reflexivity.
  now apply length_sort_values.
Qed.

(** X21.  Take a state that the walk reaches and a file that is read and
    whose serial numbers lines 166-172 coerce without raising.
    Reconciliation adds one line for every record of the accumulator, of
    whatever year, also when several records share a serial number or the
    file already holds it: the file written back has as many lines as the
    coercion leaves rows, plus the number of accumulated records. *)
Theorem reconciliation_adds_a_line_per_record
        (to_datetime : PyStr.pyval -> option Timestamp)
        (self : ConvertFormat) (fs : gmap string file) (path : string)
        (f : file) (df0 df1 : DataFrame) :
  reachable to_datetime self ->
  fs !! path = Some f -> Pandas.read_csv f = Ok df0 ->
  coerce_serial_numbers df0 = Ok df1 ->
  exists self' lines,
    adding_serial_number self fs path = (self', <[path := Table lines]> fs, Returned) /\
    length lines = (length df1 + total_records (dfs self))%nat.
Proof.
  intros Hreach Hf Hread Hco.
  assert (Ht : text_serials (dfs self))
    by (apply dfs_ok_text_serials; eapply reachable_dfs_ok; eauto).
  destruct (adding_serial_number_writes self fs path f df0 df1 Ht Hf Hread Hco)
    as (self' & Heq).
  exists self', (map (rmap Pandas.render) (reconciled_frame (dfs self) df0)).
  split; [exact Heq|].
  rewrite length_map, (length_reconciled_frame _ _ _ Hco).
  apply (insert_missing_length _ df0); [exact Hco|].
  intros y bucket e Hin He.
  destruct (reachable_dfs_ok _ _ Hreach _ _ _ Hin He) as (r & ts & n & -> & Hr & _).
  now exists r.
Qed.

Lemma reconciliation_adds_a_line_per_record_witness :
  exists self' lines,
    adding_serial_number (Sample.after [Sample.file_A; Sample.file_B])
                         Runs.unsorted_store Runs.path2023 =
    (self', <[Runs.path2023 := Table lines]> Runs.unsorted_store, Returned) /\
    length lines = (2 + 2)%nat.
Proof.
  exact (reconciliation_adds_a_line_per_record Sample.to_datetime_mdY
           (Sample.after [Sample.file_A; Sample.file_B]) Runs.unsorted_store Runs.path2023
           (Table [serial_only_line "77"; serial_only_line "42"])
           [blank_row (Int 77); blank_row (Int 42)]
           [blank_row (Int 77); blank_row (Int 42)]
           reachable_after_A_B eq_refl eq_refl eq_refl).
Defined.
